(** * Transaction reconciliation (streamlit_app.py): model and properties

    A shallow embedding of [reconcile_transactions] of [streamlit_app.py]: the
    normalisation of the two tables (lines 72-77) and the matching loops
    (lines 79-125), and then [display_results] and [generate_report] as the
    elements one call renders.

    - Amounts are binary64 floats ([float], the kernel's IEEE 754 numbers):
      [pd.to_numeric(..., errors='coerce')] yields float64, with NaN for a
      cell it cannot read and an infinity for a number beyond the range.  A
      column whose every text is an integer, which pandas keeps as int64, is
      identified with the float64 column of the same values: the two agree in
      the loops for integers below 2^53, except for the text [-0], the
      integer 0 there and the float -0.0 here.
    - Labels and text cells are Python strings, held in UTF-8.
    - A [DataFrame] is a list of column labels and a list of rows of cells; a
      cell is a string or a float, and a column is numeric when it holds no
      string.
    - Exceptions are explicit: every function that can raise returns a
      [result]. *)

From Stdlib Require Import ZArith List Bool String Ascii Lia.
From Stdlib Require Import Floats.
Import ListNotations.

Set Warnings "-inexact-float".

Local Open Scope string_scope.
Local Open Scope list_scope.

(** ** Exceptions *)

Inductive exn : Type :=
| KeyError (key : string)     (* [df['amount']] with no such column *)
| AttributeError              (* [.str] on the DataFrame that a duplicated label selects *)
| ZeroDivisionError.          (* [/] on two Python floats, divisor zero *)

Inductive result (A : Type) : Type :=
| Ok (a : A)
| Raise (e : exn).

Arguments Ok {A} a.
Arguments Raise {A} e.

Definition bind {A B : Type} (r : result A) (k : A -> result B) : result B :=
  match r with
  | Ok a => k a
  | Raise e => Raise e
  end.

Notation "x <- r ;; k" := (bind r (fun x => k))
  (at level 61, r at next level, right associativity).

Definition raises {A : Type} (r : result A) : bool :=
  match r with
  | Ok _ => false
  | Raise _ => true
  end.

(** ** Tables *)

Inductive cell : Type :=
| CStr (s : string)
| CNum (x : float).

(** One row as [iterrows] and [to_dict] present it: label -> value, in column
    order. *)
Definition Series : Type := list (string * cell).

Record DataFrame : Type := mkDataFrame {
  columns : list string;
  rows : list (list cell)
}.

Definition is_str (c : cell) : bool :=
  match c with
  | CStr _ => true
  | CNum _ => false
  end.

(** [iterrows] builds each row from [df.values].  When some column is not
    numeric that array has dtype object and the amounts in a row are Python
    [float] objects; when every column is numeric they are [numpy.float64]. *)
Definition object_rows (df : DataFrame) : bool :=
  existsb (existsb is_str) (rows df).

Definition iterrows (df : DataFrame) : list Series :=
  map (fun r => combine (columns df) r) (rows df).

Fixpoint lookup (k : string) (s : Series) : option cell :=
  match s with
  | [] => None
  | (k', v) :: s' => if String.eqb k k' then Some v else lookup k s'
  end.

(** [row['amount']].  After normalisation the amount cell is always numeric;
    the other branch is unreachable and answers NaN. *)
Definition amount (s : Series) : float :=
  match lookup "amount" s with
  | Some (CNum x) => x
  | _ => nan
  end.

(** ** Text (lines 72-77)

    A Python string is a sequence of code points.  The model holds it in
    UTF-8, one [ascii] for each byte, and the string methods of lines 72-77
    work on the code points it decodes to.  The character tables are those of
    Unicode 14.0, the version of CPython 3.11. *)

Definition code (c : ascii) : N := N_of_ascii c.

Definition continuation (b : N) : bool := ((128 <=? b) && (b <=? 191))%N.

(** The low six bits of a continuation byte. *)
Definition payload (b : N) : N := (b mod 64)%N.

(** A byte outside every well-formed sequence stands for itself, above the
    code points, so that no method takes it for a character. *)
Definition stray (b : N) : N := (1114112 + b)%N.

Fixpoint decode (l : list ascii) : list N :=
  match l with
  | [] => []
  | c0 :: l1 =>
      let b0 := code c0 in
      if (b0 <? 128)%N then b0 :: decode l1
      else
        match l1 with
        | [] => [stray b0]
        | c1 :: l2 =>
            let b1 := code c1 in
            if ((194 <=? b0) && (b0 <=? 223))%N && continuation b1 then
              ((b0 - 192) * 64 + payload b1)%N :: decode l2
            else
              match l2 with
              | [] => stray b0 :: decode l1
              | c2 :: l3 =>
                  let b2 := code c2 in
                  let u := ((b0 - 224) * 4096 + payload b1 * 64 + payload b2)%N in
                  if ((224 <=? b0) && (b0 <=? 239))%N && continuation b1
                     && continuation b2 && (2048 <=? u)%N then
                    u :: decode l3
                  else
                    match l3 with
                    | [] => stray b0 :: decode l1
                    | c3 :: l4 =>
                        let b3 := code c3 in
                        let v := ((b0 - 240) * 262144 + payload b1 * 4096
                                  + payload b2 * 64 + payload b3)%N in
                        if ((240 <=? b0) && (b0 <=? 244))%N && continuation b1
                           && continuation b2 && continuation b3
                           && ((65536 <=? v) && (v <? 1114112))%N then
                          v :: decode l4
                        else stray b0 :: decode l1
                    end
              end
        end
  end.

Definition encode_char (c : N) : list ascii :=
  map ascii_of_N
    (if c <? 128 then [c]
     else if c <? 2048 then [192 + c / 64; 128 + c mod 64]
     else if c <? 65536 then
       [224 + c / 4096; 128 + (c / 64) mod 64; 128 + c mod 64]
     else if c <? 1114112 then
       [240 + c / 262144; 128 + (c / 4096) mod 64; 128 + (c / 64) mod 64;
        128 + c mod 64]
     else [c - 1114112])%N.

Definition encode (l : list N) : list ascii := flat_map encode_char l.

(** A string method given by what it does to the code points. *)
Definition on_chars (f : list N -> list N) (s : string) : string :=
  string_of_list_ascii (encode (f (decode (list_ascii_of_string s)))).

Definition in_ranges (t : list (N * N)) (c : N) : bool :=
  existsb (fun r => (fst r <=? c) && (c <=? snd r))%N t.

(** The characters [str.strip] removes, [str.isspace]: ranges of code points. *)
Definition White_Space : list (N * N) :=
  [(9, 13); (28, 32); (133, 133); (160, 160); (5760, 5760); (8192, 8202);
   (8232, 8233); (8239, 8239); (8287, 8287); (12288, 12288)]%N.

(** The decimal digits of every script, which [\d] matches in a [str] pattern. *)
Definition Decimal_Number : list (N * N) :=
  [(48, 57); (1632, 1641); (1776, 1785); (1984, 1993); (2406, 2415);
   (2534, 2543); (2662, 2671); (2790, 2799); (2918, 2927); (3046, 3055);
   (3174, 3183); (3302, 3311); (3430, 3439); (3558, 3567); (3664, 3673);
   (3792, 3801); (3872, 3881); (4160, 4169); (4240, 4249); (6112, 6121);
   (6160, 6169); (6470, 6479); (6608, 6617); (6784, 6793); (6800, 6809);
   (6992, 7001); (7088, 7097); (7232, 7241); (7248, 7257); (42528, 42537);
   (43216, 43225); (43264, 43273); (43472, 43481); (43504, 43513);
   (43600, 43609); (44016, 44025); (65296, 65305); (66720, 66729);
   (68912, 68921); (69734, 69743); (69872, 69881); (69942, 69951);
   (70096, 70105); (70384, 70393); (70736, 70745); (70864, 70873);
   (71248, 71257); (71360, 71369); (71472, 71481); (71904, 71913);
   (72016, 72025); (72784, 72793); (73040, 73049); (73120, 73129);
   (92768, 92777); (92864, 92873); (93008, 93017); (120782, 120831);
   (123200, 123209); (123632, 123641); (125264, 125273); (130032, 130041)]%N.

(** The characters with a lower-case form: from the first to the last of a run,
    every one or every second one, and the lower-case form of the first. *)
Definition Lowercase_Mapping : list (N * N * N * N) :=
  [(65, 90, 1, 97); (192, 214, 1, 224); (216, 222, 1, 248); (256, 302, 2, 257);
   (306, 310, 2, 307); (313, 327, 2, 314); (330, 374, 2, 331);
   (376, 376, 1, 255); (377, 381, 2, 378); (385, 385, 1, 595);
   (386, 388, 2, 387); (390, 390, 1, 596); (391, 391, 1, 392);
   (393, 394, 1, 598); (395, 395, 1, 396); (398, 398, 1, 477);
   (399, 399, 1, 601); (400, 400, 1, 603); (401, 401, 1, 402);
   (403, 403, 1, 608); (404, 404, 1, 611); (406, 406, 1, 617);
   (407, 407, 1, 616); (408, 408, 1, 409); (412, 412, 1, 623);
   (413, 413, 1, 626); (415, 415, 1, 629); (416, 420, 2, 417);
   (422, 422, 1, 640); (423, 423, 1, 424); (425, 425, 1, 643);
   (428, 428, 1, 429); (430, 430, 1, 648); (431, 431, 1, 432);
   (433, 434, 1, 650); (435, 437, 2, 436); (439, 439, 1, 658);
   (440, 440, 1, 441); (444, 444, 1, 445); (452, 452, 1, 454);
   (453, 453, 1, 454); (455, 455, 1, 457); (456, 456, 1, 457);
   (458, 458, 1, 460); (459, 475, 2, 460); (478, 494, 2, 479);
   (497, 497, 1, 499); (498, 500, 2, 499); (502, 502, 1, 405);
   (503, 503, 1, 447); (504, 542, 2, 505); (544, 544, 1, 414);
   (546, 562, 2, 547); (570, 570, 1, 11365); (571, 571, 1, 572);
   (573, 573, 1, 410); (574, 574, 1, 11366); (577, 577, 1, 578);
   (579, 579, 1, 384); (580, 580, 1, 649); (581, 581, 1, 652);
   (582, 590, 2, 583); (880, 882, 2, 881); (886, 886, 1, 887);
   (895, 895, 1, 1011); (902, 902, 1, 940); (904, 906, 1, 941);
   (908, 908, 1, 972); (910, 911, 1, 973); (913, 929, 1, 945);
   (932, 939, 1, 964); (975, 975, 1, 983); (984, 1006, 2, 985);
   (1012, 1012, 1, 952); (1015, 1015, 1, 1016); (1017, 1017, 1, 1010);
   (1018, 1018, 1, 1019); (1021, 1023, 1, 891); (1024, 1039, 1, 1104);
   (1040, 1071, 1, 1072); (1120, 1152, 2, 1121); (1162, 1214, 2, 1163);
   (1216, 1216, 1, 1231); (1217, 1229, 2, 1218); (1232, 1326, 2, 1233);
   (1329, 1366, 1, 1377); (4256, 4293, 1, 11520); (4295, 4295, 1, 11559);
   (4301, 4301, 1, 11565); (5024, 5103, 1, 43888); (5104, 5109, 1, 5112);
   (7312, 7354, 1, 4304); (7357, 7359, 1, 4349); (7680, 7828, 2, 7681);
   (7838, 7838, 1, 223); (7840, 7934, 2, 7841); (7944, 7951, 1, 7936);
   (7960, 7965, 1, 7952); (7976, 7983, 1, 7968); (7992, 7999, 1, 7984);
   (8008, 8013, 1, 8000); (8025, 8031, 2, 8017); (8040, 8047, 1, 8032);
   (8072, 8079, 1, 8064); (8088, 8095, 1, 8080); (8104, 8111, 1, 8096);
   (8120, 8121, 1, 8112); (8122, 8123, 1, 8048); (8124, 8124, 1, 8115);
   (8136, 8139, 1, 8050); (8140, 8140, 1, 8131); (8152, 8153, 1, 8144);
   (8154, 8155, 1, 8054); (8168, 8169, 1, 8160); (8170, 8171, 1, 8058);
   (8172, 8172, 1, 8165); (8184, 8185, 1, 8056); (8186, 8187, 1, 8060);
   (8188, 8188, 1, 8179); (8486, 8486, 1, 969); (8490, 8490, 1, 107);
   (8491, 8491, 1, 229); (8498, 8498, 1, 8526); (8544, 8559, 1, 8560);
   (8579, 8579, 1, 8580); (9398, 9423, 1, 9424); (11264, 11311, 1, 11312);
   (11360, 11360, 1, 11361); (11362, 11362, 1, 619); (11363, 11363, 1, 7549);
   (11364, 11364, 1, 637); (11367, 11371, 2, 11368); (11373, 11373, 1, 593);
   (11374, 11374, 1, 625); (11375, 11375, 1, 592); (11376, 11376, 1, 594);
   (11378, 11378, 1, 11379); (11381, 11381, 1, 11382); (11390, 11391, 1, 575);
   (11392, 11490, 2, 11393); (11499, 11501, 2, 11500);
   (11506, 11506, 1, 11507); (42560, 42604, 2, 42561);
   (42624, 42650, 2, 42625); (42786, 42798, 2, 42787);
   (42802, 42862, 2, 42803); (42873, 42875, 2, 42874); (42877, 42877, 1, 7545);
   (42878, 42886, 2, 42879); (42891, 42891, 1, 42892); (42893, 42893, 1, 613);
   (42896, 42898, 2, 42897); (42902, 42920, 2, 42903); (42922, 42922, 1, 614);
   (42923, 42923, 1, 604); (42924, 42924, 1, 609); (42925, 42925, 1, 620);
   (42926, 42926, 1, 618); (42928, 42928, 1, 670); (42929, 42929, 1, 647);
   (42930, 42930, 1, 669); (42931, 42931, 1, 43859); (42932, 42946, 2, 42933);
   (42948, 42948, 1, 42900); (42949, 42949, 1, 642); (42950, 42950, 1, 7566);
   (42951, 42953, 2, 42952); (42960, 42960, 1, 42961);
   (42966, 42968, 2, 42967); (42997, 42997, 1, 42998);
   (65313, 65338, 1, 65345); (66560, 66599, 1, 66600);
   (66736, 66771, 1, 66776); (66928, 66938, 1, 66967);
   (66940, 66954, 1, 66979); (66956, 66962, 1, 66995);
   (66964, 66965, 1, 67003); (68736, 68786, 1, 68800);
   (71840, 71871, 1, 71872); (93760, 93791, 1, 93792);
   (125184, 125217, 1, 125218)]%N.

(** The characters that the rule for the final sigma skips. *)
Definition Case_Ignorable : list (N * N) :=
  [(39, 39); (46, 46); (58, 58); (94, 94); (96, 96); (168, 168); (173, 173);
   (175, 175); (180, 180); (183, 184); (688, 879); (884, 885); (890, 890);
   (900, 901); (903, 903); (1155, 1161); (1369, 1369); (1375, 1375);
   (1425, 1469); (1471, 1471); (1473, 1474); (1476, 1477); (1479, 1479);
   (1524, 1524); (1536, 1541); (1552, 1562); (1564, 1564); (1600, 1600);
   (1611, 1631); (1648, 1648); (1750, 1757); (1759, 1768); (1770, 1773);
   (1807, 1807); (1809, 1809); (1840, 1866); (1958, 1968); (2027, 2037);
   (2042, 2042); (2045, 2045); (2070, 2093); (2137, 2139); (2184, 2184);
   (2192, 2193); (2200, 2207); (2249, 2306); (2362, 2362); (2364, 2364);
   (2369, 2376); (2381, 2381); (2385, 2391); (2402, 2403); (2417, 2417);
   (2433, 2433); (2492, 2492); (2497, 2500); (2509, 2509); (2530, 2531);
   (2558, 2558); (2561, 2562); (2620, 2620); (2625, 2626); (2631, 2632);
   (2635, 2637); (2641, 2641); (2672, 2673); (2677, 2677); (2689, 2690);
   (2748, 2748); (2753, 2757); (2759, 2760); (2765, 2765); (2786, 2787);
   (2810, 2815); (2817, 2817); (2876, 2876); (2879, 2879); (2881, 2884);
   (2893, 2893); (2901, 2902); (2914, 2915); (2946, 2946); (3008, 3008);
   (3021, 3021); (3072, 3072); (3076, 3076); (3132, 3132); (3134, 3136);
   (3142, 3144); (3146, 3149); (3157, 3158); (3170, 3171); (3201, 3201);
   (3260, 3260); (3263, 3263); (3270, 3270); (3276, 3277); (3298, 3299);
   (3328, 3329); (3387, 3388); (3393, 3396); (3405, 3405); (3426, 3427);
   (3457, 3457); (3530, 3530); (3538, 3540); (3542, 3542); (3633, 3633);
   (3636, 3642); (3654, 3662); (3761, 3761); (3764, 3772); (3782, 3782);
   (3784, 3789); (3864, 3865); (3893, 3893); (3895, 3895); (3897, 3897);
   (3953, 3966); (3968, 3972); (3974, 3975); (3981, 3991); (3993, 4028);
   (4038, 4038); (4141, 4144); (4146, 4151); (4153, 4154); (4157, 4158);
   (4184, 4185); (4190, 4192); (4209, 4212); (4226, 4226); (4229, 4230);
   (4237, 4237); (4253, 4253); (4348, 4348); (4957, 4959); (5906, 5908);
   (5938, 5939); (5970, 5971); (6002, 6003); (6068, 6069); (6071, 6077);
   (6086, 6086); (6089, 6099); (6103, 6103); (6109, 6109); (6155, 6159);
   (6211, 6211); (6277, 6278); (6313, 6313); (6432, 6434); (6439, 6440);
   (6450, 6450); (6457, 6459); (6679, 6680); (6683, 6683); (6742, 6742);
   (6744, 6750); (6752, 6752); (6754, 6754); (6757, 6764); (6771, 6780);
   (6783, 6783); (6823, 6823); (6832, 6862); (6912, 6915); (6964, 6964);
   (6966, 6970); (6972, 6972); (6978, 6978); (7019, 7027); (7040, 7041);
   (7074, 7077); (7080, 7081); (7083, 7085); (7142, 7142); (7144, 7145);
   (7149, 7149); (7151, 7153); (7212, 7219); (7222, 7223); (7288, 7293);
   (7376, 7378); (7380, 7392); (7394, 7400); (7405, 7405); (7412, 7412);
   (7416, 7417); (7468, 7530); (7544, 7544); (7579, 7679); (8125, 8125);
   (8127, 8129); (8141, 8143); (8157, 8159); (8173, 8175); (8189, 8190);
   (8203, 8207); (8216, 8217); (8228, 8228); (8231, 8231); (8234, 8238);
   (8288, 8292); (8294, 8303); (8305, 8305); (8319, 8319); (8336, 8348);
   (8400, 8432); (11388, 11389); (11503, 11505); (11631, 11631);
   (11647, 11647); (11744, 11775); (11823, 11823); (12293, 12293);
   (12330, 12333); (12337, 12341); (12347, 12347); (12441, 12446);
   (12540, 12542); (40981, 40981); (42232, 42237); (42508, 42508);
   (42607, 42610); (42612, 42621); (42623, 42623); (42652, 42655);
   (42736, 42737); (42752, 42785); (42864, 42864); (42888, 42890);
   (42994, 42996); (43000, 43001); (43010, 43010); (43014, 43014);
   (43019, 43019); (43045, 43046); (43052, 43052); (43204, 43205);
   (43232, 43249); (43263, 43263); (43302, 43309); (43335, 43345);
   (43392, 43394); (43443, 43443); (43446, 43449); (43452, 43453);
   (43471, 43471); (43493, 43494); (43561, 43566); (43569, 43570);
   (43573, 43574); (43587, 43587); (43596, 43596); (43632, 43632);
   (43644, 43644); (43696, 43696); (43698, 43700); (43703, 43704);
   (43710, 43711); (43713, 43713); (43741, 43741); (43756, 43757);
   (43763, 43764); (43766, 43766); (43867, 43871); (43881, 43883);
   (44005, 44005); (44008, 44008); (44013, 44013); (64286, 64286);
   (64434, 64450); (65024, 65039); (65043, 65043); (65056, 65071);
   (65106, 65106); (65109, 65109); (65279, 65279); (65287, 65287);
   (65294, 65294); (65306, 65306); (65342, 65342); (65344, 65344);
   (65392, 65392); (65438, 65439); (65507, 65507); (65529, 65531);
   (66045, 66045); (66272, 66272); (66422, 66426); (67456, 67461);
   (67463, 67504); (67506, 67514); (68097, 68099); (68101, 68102);
   (68108, 68111); (68152, 68154); (68159, 68159); (68325, 68326);
   (68900, 68903); (69291, 69292); (69446, 69456); (69506, 69509);
   (69633, 69633); (69688, 69702); (69744, 69744); (69747, 69748);
   (69759, 69761); (69811, 69814); (69817, 69818); (69821, 69821);
   (69826, 69826); (69837, 69837); (69888, 69890); (69927, 69931);
   (69933, 69940); (70003, 70003); (70016, 70017); (70070, 70078);
   (70089, 70092); (70095, 70095); (70191, 70193); (70196, 70196);
   (70198, 70199); (70206, 70206); (70367, 70367); (70371, 70378);
   (70400, 70401); (70459, 70460); (70464, 70464); (70502, 70508);
   (70512, 70516); (70712, 70719); (70722, 70724); (70726, 70726);
   (70750, 70750); (70835, 70840); (70842, 70842); (70847, 70848);
   (70850, 70851); (71090, 71093); (71100, 71101); (71103, 71104);
   (71132, 71133); (71219, 71226); (71229, 71229); (71231, 71232);
   (71339, 71339); (71341, 71341); (71344, 71349); (71351, 71351);
   (71453, 71455); (71458, 71461); (71463, 71467); (71727, 71735);
   (71737, 71738); (71995, 71996); (71998, 71998); (72003, 72003);
   (72148, 72151); (72154, 72155); (72160, 72160); (72193, 72202);
   (72243, 72248); (72251, 72254); (72263, 72263); (72273, 72278);
   (72281, 72283); (72330, 72342); (72344, 72345); (72752, 72758);
   (72760, 72765); (72767, 72767); (72850, 72871); (72874, 72880);
   (72882, 72883); (72885, 72886); (73009, 73014); (73018, 73018);
   (73020, 73021); (73023, 73029); (73031, 73031); (73104, 73105);
   (73109, 73109); (73111, 73111); (73459, 73460); (78896, 78904);
   (92912, 92916); (92976, 92982); (92992, 92995); (94031, 94031);
   (94095, 94111); (94176, 94177); (94179, 94180); (110576, 110579);
   (110581, 110587); (110589, 110590); (113821, 113822); (113824, 113827);
   (118528, 118573); (118576, 118598); (119143, 119145); (119155, 119170);
   (119173, 119179); (119210, 119213); (119362, 119364); (121344, 121398);
   (121403, 121452); (121461, 121461); (121476, 121476); (121499, 121503);
   (121505, 121519); (122880, 122886); (122888, 122904); (122907, 122913);
   (122915, 122916); (122918, 122922); (123184, 123197); (123566, 123566);
   (123628, 123631); (125136, 125142); (125252, 125259); (127995, 127999);
   (917505, 917505); (917536, 917631); (917760, 917999)]%N.

(** The cased characters among those that the rule does not skip. *)
Definition Cased : list (N * N) :=
  [(65, 90); (97, 122); (170, 170); (181, 181); (186, 186); (192, 214);
   (216, 246); (248, 442); (444, 447); (452, 659); (661, 687); (880, 883);
   (886, 887); (891, 893); (895, 895); (902, 902); (904, 906); (908, 908);
   (910, 929); (931, 1013); (1015, 1153); (1162, 1327); (1329, 1366);
   (1376, 1416); (4256, 4293); (4295, 4295); (4301, 4301); (4304, 4346);
   (4349, 4351); (5024, 5109); (5112, 5117); (7296, 7304); (7312, 7354);
   (7357, 7359); (7424, 7467); (7531, 7543); (7545, 7578); (7680, 7957);
   (7960, 7965); (7968, 8005); (8008, 8013); (8016, 8023); (8025, 8025);
   (8027, 8027); (8029, 8029); (8031, 8061); (8064, 8116); (8118, 8124);
   (8126, 8126); (8130, 8132); (8134, 8140); (8144, 8147); (8150, 8155);
   (8160, 8172); (8178, 8180); (8182, 8188); (8450, 8450); (8455, 8455);
   (8458, 8467); (8469, 8469); (8473, 8477); (8484, 8484); (8486, 8486);
   (8488, 8488); (8490, 8493); (8495, 8500); (8505, 8505); (8508, 8511);
   (8517, 8521); (8526, 8526); (8544, 8575); (8579, 8580); (9398, 9449);
   (11264, 11387); (11390, 11492); (11499, 11502); (11506, 11507);
   (11520, 11557); (11559, 11559); (11565, 11565); (42560, 42605);
   (42624, 42651); (42786, 42863); (42865, 42887); (42891, 42894);
   (42896, 42954); (42960, 42961); (42963, 42963); (42965, 42969);
   (42997, 42998); (43002, 43002); (43824, 43866); (43872, 43880);
   (43888, 43967); (64256, 64262); (64275, 64279); (65313, 65338);
   (65345, 65370); (66560, 66639); (66736, 66771); (66776, 66811);
   (66928, 66938); (66940, 66954); (66956, 66962); (66964, 66965);
   (66967, 66977); (66979, 66993); (66995, 67001); (67003, 67004);
   (68736, 68786); (68800, 68850); (71840, 71903); (93760, 93823);
   (119808, 119892); (119894, 119964); (119966, 119967); (119970, 119970);
   (119973, 119974); (119977, 119980); (119982, 119993); (119995, 119995);
   (119997, 120003); (120005, 120069); (120071, 120074); (120077, 120084);
   (120086, 120092); (120094, 120121); (120123, 120126); (120128, 120132);
   (120134, 120134); (120138, 120144); (120146, 120485); (120488, 120512);
   (120514, 120538); (120540, 120570); (120572, 120596); (120598, 120628);
   (120630, 120654); (120656, 120686); (120688, 120712); (120714, 120744);
   (120746, 120770); (120772, 120779); (122624, 122633); (122635, 122654);
   (125184, 125251); (127280, 127305); (127312, 127337); (127344, 127369)]%N.

Definition is_space (c : N) : bool := in_ranges White_Space c.

(** [\d] in a [str] pattern. *)
Definition is_decimal (c : N) : bool := in_ranges Decimal_Number c.

(** The lower-case form of a character that has a single one. *)
Definition lower_char (c : N) : N :=
  match
    find (fun r =>
            let '(first, last, every, _) := r in
            (first <=? c) && (c <=? last) && ((c - first) mod every =? 0))%N
         Lowercase_Mapping
  with
  | Some (first, _, _, to) => (to + (c - first))%N
  | None => c
  end.

Definition case_ignorable (c : N) : bool := in_ranges Case_Ignorable c.
Definition cased (c : N) : bool := in_ranges Cased c.

Fixpoint skip_ignorable (l : list N) : list N :=
  match l with
  | [] => []
  | c :: l' => if case_ignorable c then skip_ignorable l' else l
  end.

(** The capital sigma is final when, case-ignorable characters skipped, a
    cased character precedes it and none follows.  [before] is the text before
    it, the nearest character first. *)
Definition final_sigma (before after : list N) : bool :=
  match skip_ignorable before with
  | [] => false
  | c :: _ =>
      cased c &&
      match skip_ignorable after with
      | [] => true
      | d :: _ => negb (cased d)
      end
  end.

(** [str.lower] character by character: U+03A3 becomes the final or the
    medial sigma, U+0130 becomes an [i] and a combining dot. *)
Fixpoint lower_from (before l : list N) : list N :=
  match l with
  | [] => []
  | c :: l' =>
      (if (c =? 931)%N then [if final_sigma before l' then 962 else 963]%N
       else if (c =? 304)%N then [105; 775]%N
       else [lower_char c])
      ++ lower_from (c :: before) l'
  end.

Fixpoint lstrip (l : list N) : list N :=
  match l with
  | [] => []
  | c :: l' => if is_space c then lstrip l' else l
  end.

Fixpoint rstrip (l : list N) : list N :=
  match l with
  | [] => []
  | c :: l' =>
      match rstrip l' with
      | [] => if is_space c then [] else [c]
      | t => c :: t
      end
  end.

(** A character the substitution of lines 76-77 keeps: a decimal digit, [.]
    or [-]. *)
Definition numeric_char (c : N) : bool :=
  is_decimal c || (c =? 46)%N || (c =? 45)%N.

Definition lower : string -> string := on_chars (lower_from []).
Definition strip : string -> string := on_chars (fun l => rstrip (lstrip l)).

(** [.str.replace('[^\d.-]', '', regex=True)]. *)
Definition keep_numeric : string -> string := on_chars (filter numeric_char).

(** ** Decimal text to float and back

    [str] on a float and [pd.to_numeric] on a string are library code.

    [str] is modelled by its contract: the shortest digit string that [float]
    reads back as the same float (the one nearest to it when there are
    several), printed positionally when the decimal point position is in
    (-4, 16] and in scientific notation otherwise.  [float] on such a text is
    the decimal grammar [[+-]digits[.digits][e[+-]digits]] (at least one
    mantissa digit) followed by the nearest binary64. *)

(** A digit for the two readers, which work on bytes: 0 to 9 only. *)
Definition is_digit (c : ascii) : bool :=
  (48 <=? code c)%N && (code c <=? 57)%N.

Definition digit_val (c : ascii) : Z := (Z.of_N (code c) - 48)%Z.

(** Reads a run of digits: the number read so far, how many digits, the rest. *)
Fixpoint read_digits (l : list ascii) (acc cnt : Z) : Z * Z * list ascii :=
  match l with
  | c :: l' =>
      if is_digit c then read_digits l' (10 * acc + digit_val c)%Z (cnt + 1)%Z
      else (acc, cnt, l)
  | [] => (acc, cnt, [])
  end.

Definition read_sign (l : list ascii) : bool * list ascii :=
  match l with
  | "-"%char :: l' => (true, l')
  | "+"%char :: l' => (false, l')
  | _ => (false, l)
  end.

(** The binary64 nearest to [(-1)^neg * m * 10^e10], ties to even. *)
Definition decimal_to_float (neg : bool) (m e10 : Z) : float :=
  match m with
  | Z0 => if neg then neg_zero else zero
  | Zpos p =>
      SF2Prim
        (if (0 <=? e10)%Z then
           binary_normalize prec emax (cond_Zopp neg (m * 10 ^ e10)%Z) 0%Z false
         else
           SFdiv prec emax (S754_finite neg p 0%Z)
                 (S754_finite false (Z.to_pos (10 ^ (- e10))%Z) 0%Z))
  | Zneg _ => nan
  end.

(** [float(s)] on the text of a number. *)
Definition float_of_text (l : list ascii) : option float :=
  let '(neg, l1) := read_sign l in
  let '(m1, n1, l2) := read_digits l1 0%Z 0%Z in
  let '(m2, n2, l3) :=
    match l2 with
    | "."%char :: l2' => read_digits l2' m1 0%Z
    | _ => (m1, 0%Z, l2)
    end in
  if (n1 + n2 =? 0)%Z then None
  else
    match l3 with
    | [] => Some (decimal_to_float neg m2 (- n2)%Z)
    | c :: l3' =>
        if Ascii.eqb c "e" || Ascii.eqb c "E" then
          let '(eneg, l4) := read_sign l3' in
          let '(ev, en, l5) := read_digits l4 0%Z 0%Z in
          match l5 with
          | [] =>
              if (en =? 0)%Z then None
              else Some (decimal_to_float neg m2 (cond_Zopp eneg ev - n2)%Z)
          | _ :: _ => None
          end
        else None
    end.

(** *** The parser of [pd.to_numeric]

    pandas reads the text of a cell with its own routine, [precise_xstrtod],
    on the UTF-8 bytes: at most 17 digits are accumulated in a binary64, the
    digits of the integer part beyond them only raise the decimal exponent
    and those of the fraction are dropped, and the number is then scaled by
    one power of ten from a table.  Up to 15 significant digits and 22 decimal
    places the result is the nearest binary64; beyond, it need not be.  A
    product beyond the binary64 range is an infinity.  A digit is one of 0
    to 9: a text with a digit of another script is not read.  After line 76 a
    text holds digits, [.] and [-] only, so the blanks, the exponent and the
    spellings of infinity that are also accepted do not occur. *)

Definition isspace_ascii (c : ascii) : bool :=
  Ascii.eqb c " " || ((9 <=? code c) && (code c <=? 13))%N.

Fixpoint skip_blanks (l : list ascii) : list ascii :=
  match l with
  | [] => []
  | c :: l' => if isspace_ascii c then skip_blanks l' else l
  end.

Definition max_digits : Z := 17.

(** The entry [e[k]] of the table, the C literal [1e<k>]. *)
Definition power_of_ten (k : Z) : float := decimal_to_float false 1 k.

Definition digit_float (c : ascii) : float :=
  of_uint63 (Uint63.of_Z (digit_val c)).

(** The digits before the point: the number, how many digits it holds, the
    decimal exponent, the rest of the text. *)
Fixpoint integer_part (l : list ascii) (number : float) (num_digits exponent : Z)
    : float * Z * Z * list ascii :=
  match l with
  | c :: l' =>
      if is_digit c then
        if (num_digits <? max_digits)%Z then
          integer_part l' (number * 10 + digit_float c)%float
                       (num_digits + 1)%Z exponent
        else integer_part l' number num_digits (exponent + 1)%Z
      else (number, num_digits, exponent, l)
  | [] => (number, num_digits, exponent, [])
  end.

(** The digits after the point: the number, how many digits it holds, how
    many of them are decimals, the rest of the text. *)
Fixpoint decimal_part (l : list ascii) (number : float) (num_digits num_decimals : Z)
    : float * Z * Z * list ascii :=
  match l with
  | c :: l' =>
      if is_digit c then
        if (num_digits <? max_digits)%Z then
          decimal_part l' (number * 10 + digit_float c)%float
                       (num_digits + 1)%Z (num_decimals + 1)%Z
        else decimal_part l' number num_digits num_decimals
      else (number, num_digits, num_decimals, l)
  | [] => (number, num_digits, num_decimals, [])
  end.

(** The digits of the exponent, at most 17. *)
Fixpoint exponent_part (l : list ascii) (n num_digits : Z) : Z * Z * list ascii :=
  match l with
  | c :: l' =>
      if is_digit c && (num_digits <? max_digits)%Z then
        exponent_part l' (10 * n + digit_val c)%Z (num_digits + 1)%Z
      else (n, num_digits, l)
  | [] => (n, num_digits, [])
  end.

(** The last step; [None] is the range error. *)
Definition scale (number : float) (exponent : Z) : option float :=
  if (308 <? exponent)%Z then None
  else if (0 <? exponent)%Z then Some (number * power_of_ten exponent)%float
  else if (exponent <? -308)%Z then
    if (exponent <? -616)%Z then Some 0%float
    else Some (number / power_of_ten (-308 - exponent) / power_of_ten 308)%float
  else Some (number / power_of_ten (- exponent))%float.

(** The number read and the text left after it; [None] when there is no digit
    or the exponent is out of range. *)
Definition precise_xstrtod (l : list ascii) : option (float * list ascii) :=
  let '(negative, l1) := read_sign (skip_blanks l) in
  let '(number, num_digits, exponent, l2) := integer_part l1 0%float 0%Z 0%Z in
  let '(number, num_digits, exponent, l3) :=
    match l2 with
    | "."%char :: l2' =>
        let '(number, num_digits, num_decimals, l3) :=
          decimal_part l2' number num_digits 0%Z in
        (number, num_digits, (exponent - num_decimals)%Z, l3)
    | _ => (number, num_digits, exponent, l2)
    end in
  if (num_digits =? 0)%Z then None
  else
    let number := if negative then (- number)%float else number in
    let '(exponent, l4) :=
      match l3 with
      | c :: l3' =>
          if Ascii.eqb c "e" || Ascii.eqb c "E" then
            let '(eneg, l3'') := read_sign l3' in
            let '(n, en, l4) := exponent_part l3'' 0%Z 0%Z in
            if (en =? 0)%Z then (exponent, l3)
            else ((if eneg then exponent - n else exponent + n)%Z, l4)
          else (exponent, l3)
      | [] => (exponent, [])
      end in
    match scale number exponent with
    | Some x => Some (x, skip_blanks l4)
    | None => None
    end.

Definition lower_ascii (c : ascii) : ascii :=
  if ((65 <=? code c) && (code c <=? 90))%N then ascii_of_N (code c + 32) else c.

(** The spellings of infinity that are accepted when the routine fails. *)
Definition infinity_text (l : list ascii) : option float :=
  let t := string_of_list_ascii (map lower_ascii l) in
  if String.eqb t "inf" || String.eqb t "+inf"
     || String.eqb t "infinity" || String.eqb t "+infinity" then Some infinity
  else if String.eqb t "-inf" || String.eqb t "-infinity" then Some neg_infinity
  else None.

(** One cell: the whole text has to be read. *)
Definition parse_float (l : list ascii) : option float :=
  match precise_xstrtod l with
  | Some (x, []) => Some x
  | _ => infinity_text l
  end.

(** [pd.to_numeric(..., errors='coerce')] on one string: a text that is not
    read is NaN. *)
Definition to_numeric (s : string) : float :=
  match parse_float (list_ascii_of_string s) with
  | Some x => x
  | None => nan
  end.

Fixpoint uint_chars (d : Decimal.uint) : list ascii :=
  match d with
  | Decimal.Nil => []
  | Decimal.D0 d => "0"%char :: uint_chars d
  | Decimal.D1 d => "1"%char :: uint_chars d
  | Decimal.D2 d => "2"%char :: uint_chars d
  | Decimal.D3 d => "3"%char :: uint_chars d
  | Decimal.D4 d => "4"%char :: uint_chars d
  | Decimal.D5 d => "5"%char :: uint_chars d
  | Decimal.D6 d => "6"%char :: uint_chars d
  | Decimal.D7 d => "7"%char :: uint_chars d
  | Decimal.D8 d => "8"%char :: uint_chars d
  | Decimal.D9 d => "9"%char :: uint_chars d
  end.

Definition digits_of (z : Z) : list ascii := uint_chars (N.to_uint (Z.to_N z)).

Definition zeros (n : Z) : list ascii := repeat "0"%char (Z.to_nat n).

(** Prints the digits [d] read as [0.d * 10^decpt] the way [repr] does. *)
Definition render (d : list ascii) (decpt : Z) : list ascii :=
  let n := Z.of_nat (List.length d) in
  if (decpt <=? -4)%Z || (16 <? decpt)%Z then
    let e := (decpt - 1)%Z in
    let mant :=
      match d with
      | c :: (_ :: _) as rest => c :: "."%char :: rest
      | _ => d
      end in
    let ed := digits_of (Z.abs e) in
    mant ++ "e"%char :: (if (e <? 0)%Z then "-"%char else "+"%char)
         :: (if (Z.abs e <? 10)%Z then "0"%char :: ed else ed)
  else if (decpt <=? 0)%Z then
    "0"%char :: "."%char :: zeros (- decpt)%Z ++ d
  else if (n <=? decpt)%Z then
    d ++ zeros (decpt - n)%Z ++ ["."%char; "0"%char]
  else
    firstn (Z.to_nat decpt) d ++ "."%char :: skipn (Z.to_nat decpt) d.

(** The decimal point position of the positive rational [num/den]: the
    [decpt] with [10^(decpt-1) <= num/den < 10^decpt]. *)
Fixpoint count_digits (fuel : nat) (q : Z) : Z :=
  match fuel with
  | O => 1%Z
  | S f => if (q <? 10)%Z then 1%Z else (1 + count_digits f (q / 10))%Z
  end.

Fixpoint leading_zeros (fuel : nat) (num den : Z) : Z :=
  match fuel with
  | O => 0%Z
  | S f =>
      if (den <=? 10 * num)%Z then 0%Z
      else (1 + leading_zeros f (10 * num) den)%Z
  end.

Definition point_position (num den : Z) : Z :=
  if (den <=? num)%Z then count_digits 400 (num / den)%Z
  else (- leading_zeros 400 num den)%Z.

(** The candidate with [n] digits at or below [num/den] and what is left. *)
Definition scaled (num den decpt n : Z) : Z * Z * Z :=
  let '(a, b) :=
    if (decpt <=? n)%Z then ((num * 10 ^ (n - decpt))%Z, den)
    else (num, (den * 10 ^ (decpt - n))%Z) in
  ((a / b)%Z, (a mod b)%Z, b).

(** [10^n] is written with one digit, one place further left. *)
Definition carry (n decpt big : Z) : Z * Z :=
  if (big =? 10 ^ n)%Z then ((10 ^ (n - 1))%Z, (decpt + 1)%Z) else (big, decpt).

Definition signed (neg : bool) (l : list ascii) : list ascii :=
  if neg then "-"%char :: l else l.

(** The digits [fst dp] with the point at [snd dp], signed, parse back to [x]. *)
Definition parses_to (x : float) (neg : bool) (dp : Z * Z) : bool :=
  match float_of_text (signed neg (render (digits_of (fst dp)) (snd dp))) with
  | Some y => Leibniz.eqb y x
  | None => false
  end.

Fixpoint shortest (fuel : nat) (n num den decpt : Z) (x : float) (neg : bool)
    : option (Z * Z) :=
  match fuel with
  | O => None
  | S f =>
      let '(lo, r, b) := scaled num den decpt n in
      let below := carry n decpt lo in
      let above := carry n decpt (lo + 1)%Z in
      let pick :=
        if (r =? 0)%Z then (if parses_to x neg below then Some below else None)
        else
          match parses_to x neg below, parses_to x neg above with
          | true, true =>
              Some (if (2 * r <? b)%Z then below
                    else if (b <? 2 * r)%Z then above
                    else if Z.even lo then below else above)
          | true, false => Some below
          | false, true => Some above
          | false, false => None
          end in
      match pick with
      | Some dp => Some dp
      | None => shortest f (n + 1)%Z num den decpt x neg
      end
  end.

(** The digits and the point position [repr] prints for a finite non-zero
    float: the shortest that parse back.  17 digits always determine a
    binary64, so the search stops there. *)
Definition shortest_digits (x : float) : option (Z * Z) :=
  match Prim2SF x with
  | S754_finite s m e =>
      let num := if (0 <=? e)%Z then (Zpos m * 2 ^ e)%Z else Zpos m in
      let den := if (0 <=? e)%Z then 1%Z else (2 ^ (- e))%Z in
      shortest 17 1%Z num den (point_position num den) x s
  | _ => None
  end.

(** [str(x)] for a float.  The last branch, 17 digits that do not parse back,
    is never taken. *)
Definition float_repr (x : float) : string :=
  string_of_list_ascii
    match Prim2SF x with
    | S754_nan => list_ascii_of_string "nan"
    | S754_infinity s => signed s (list_ascii_of_string "inf")
    | S754_zero s => signed s (list_ascii_of_string "0.0")
    | S754_finite s m e =>
        match shortest_digits x with
        | Some (d, decpt) => signed s (render (digits_of d) decpt)
        | None =>
            let num := if (0 <=? e)%Z then (Zpos m * 2 ^ e)%Z else Zpos m in
            let den := if (0 <=? e)%Z then 1%Z else (2 ^ (- e))%Z in
            let decpt := point_position num den in
            let '(lo, _, _) := scaled num den decpt 17%Z in
            signed s (render (digits_of lo) decpt)
        end
    end.

(** ** Normalisation (lines 72-77) *)

(** [.astype(str)] on one cell. *)
Definition astype_str (c : cell) : string :=
  match c with
  | CStr s => s
  | CNum x => float_repr x
  end.

(** Lines 76-77 on one cell of the amount column. *)
Definition coerce (c : cell) : cell :=
  CNum (to_numeric (keep_numeric (astype_str c))).

Fixpoint positions (k : string) (i : nat) (cols : list string) : list nat :=
  match cols with
  | [] => []
  | c :: cols' =>
      if String.eqb c k then i :: positions k (S i) cols'
      else positions k (S i) cols'
  end.

Fixpoint update {A : Type} (j : nat) (f : A -> A) (l : list A) : list A :=
  match l, j with
  | [], _ => []
  | x :: l', O => f x :: l'
  | x :: l', S j' => x :: update j' f l'
  end.

(** Lines 72 and 76 (73 and 77) on one table.  [df['amount']] raises KeyError
    when no label is [amount]; when several are, it is a DataFrame and [.str]
    raises AttributeError. *)
Definition normalize (df : DataFrame) : result DataFrame :=
  let cols := map (fun c => strip (lower c)) (columns df) in
  match positions "amount" 0 cols with
  | [] => Raise (KeyError "amount")
  | [j] => Ok (mkDataFrame cols (map (update j coerce) (rows df)))
  | _ :: _ :: _ => Raise AttributeError
  end.

(** ** The reconciliation loops (lines 79-125) *)

Record MatchPair : Type := mkMatch {
  m_opera : Series;
  m_pos : Series;
  m_amount : float
}.

Record MismatchPair : Type := mkMismatch {
  mm_opera : Series;
  mm_pos : Series;
  mm_difference : float
}.

Record Results : Type := mkResults {
  matched : list MatchPair;
  unmatched_opera : list Series;
  unmatched_pos : list Series;
  amount_mismatch : list MismatchPair
}.

(** Line 96: [abs(opera_row['amount'] - pos_row['amount']) < 0.01]. *)
Definition exact_test (a b : Series) : bool :=
  (abs (amount a - amount b) <? 0.01)%float.

(** [x / y] on the scalars of two rows.  Two Python floats raise on a zero
    divisor; as soon as one operand is a [numpy.float64] the quotient is the
    IEEE one (inf or nan, with a warning only). *)
Definition truediv (python : bool) (x y : float) : result float :=
  if python && (y =? 0)%float then Raise ZeroDivisionError else Ok (x / y)%float.

(** Line 114: [difference > 0 and difference/opera_row['amount'] < 0.05];
    [and] does not evaluate the quotient when the difference is not positive. *)
Definition fuzzy_test (python : bool) (a b : Series) : result bool :=
  let difference := abs (amount a - amount b) in
  if (0 <? difference)%float then
    q <- truediv python difference (amount a) ;;
    Ok (q <? 0.05)%float
  else Ok false.

(** Lines 112-119: the second scan of [pos_df] for one Opera row. *)
Fixpoint fuzzy_scan (python : bool) (a : Series) (pos : list Series)
    (acc : list MismatchPair) : result (list MismatchPair) :=
  match pos with
  | [] => Ok acc
  | b :: pos' =>
      hit <- fuzzy_test python a b ;;
      fuzzy_scan python a pos'
        (if hit then acc ++ [mkMismatch a b (abs (amount a - amount b))] else acc)
  end.

(** The mask [df['amount'] != x] of lines 104-105. *)
Definition amount_differs (x : float) (r : Series) : bool :=
  negb (amount r =? x)%float.

(** The state the loop over [opera_df] carries: the [results] dictionary's two
    lists under construction and the two working copies. *)
Record State : Type := mkState {
  st_matched : list MatchPair;
  st_mismatch : list MismatchPair;
  opera_unmatched : list Series;
  pos_unmatched : list Series
}.

(** Lines 93-119: the body of the loop over [opera_df] for the row [a].  The
    first scan stops at the first row of [pos_df] that passes [exact_test]. *)
Definition step (python : bool) (pos : list Series) (st : State) (a : Series)
    : result State :=
  match find (exact_test a) pos with
  | Some b =>
      Ok (mkState (st_matched st ++ [mkMatch a b (amount a)])
                  (st_mismatch st)
                  (filter (amount_differs (amount a)) (opera_unmatched st))
                  (filter (amount_differs (amount b)) (pos_unmatched st)))
  | None =>
      mm <- fuzzy_scan python a pos (st_mismatch st) ;;
      Ok (mkState (st_matched st) mm (opera_unmatched st) (pos_unmatched st))
  end.

Fixpoint loop (python : bool) (pos : list Series) (st : State)
    (opera : list Series) : result State :=
  match opera with
  | [] => Ok st
  | a :: opera' =>
      st' <- step python pos st a ;;
      loop python pos st' opera'
  end.

(** Lines 79-125 on the rows of the two normalised tables.  [python] says that
    both tables hand out Python floats. *)
Definition reconcile_rows (python : bool) (opera pos : list Series)
    : result Results :=
  st <- loop python pos (mkState [] [] opera pos) opera ;;
  Ok (mkResults (st_matched st) (opera_unmatched st) (pos_unmatched st)
                (st_mismatch st)).

(** [reconcile_transactions(opera_df, pos_df)].  Lines 72-73 cannot raise on
    string labels, so normalising one table after the other raises what the
    source raises. *)
Definition reconcile_transactions (opera_df pos_df : DataFrame) : result Results :=
  opera <- normalize opera_df ;;
  pos <- normalize pos_df ;;
  reconcile_rows (object_rows opera && object_rows pos)
                 (iterrows opera) (iterrows pos).

(** ** Closed forms used in the statements *)

(** The quotient of line 114 as IEEE arithmetic computes it. *)
Definition difference (a b : Series) : float := abs (amount a - amount b).
Definition relative_difference (a b : Series) : float :=
  (difference a b / amount a)%float.

(** What the first scan contributes for one Opera row. *)
Definition match_of (pos : list Series) (a : Series) : list MatchPair :=
  match find (exact_test a) pos with
  | Some b => [mkMatch a b (amount a)]
  | None => []
  end.

(** The IEEE reading of the test of line 114, for a run that does not raise. *)
Definition fuzzy_hit (a b : Series) : bool :=
  (0 <? difference a b)%float && (relative_difference a b <? 0.05)%float.

Definition mismatch_of (pos : list Series) (a : Series) : list MismatchPair :=
  match find (exact_test a) pos with
  | Some _ => []
  | None => map (fun b => mkMismatch a b (difference a b)) (filter (fuzzy_hit a) pos)
  end.

(** A row of the Opera working copy survives the matched row [a] when its
    amount differs from the amount of [a]; rows without a match remove
    nothing. *)
Definition survives_a (pos : list Series) (r a : Series) : bool :=
  match find (exact_test a) pos with
  | Some _ => amount_differs (amount a) r
  | None => true
  end.

Definition survives_b (pos : list Series) (r a : Series) : bool :=
  match find (exact_test a) pos with
  | Some b => amount_differs (amount b) r
  | None => true
  end.

(** The division of line 114 raises for this pair. *)
Definition pair_raises (python : bool) (a b : Series) : bool :=
  python && (0 <? difference a b)%float && (amount a =? 0)%float.

Definition row_raises (python : bool) (pos : list Series) (a : Series) : bool :=
  match find (exact_test a) pos with
  | Some _ => false
  | None => existsb (pair_raises python a) pos
  end.

(** The loop state after one row that does not raise. *)
Definition after_row (pos : list Series) (st : State) (a : Series) : State :=
  mkState (st_matched st ++ match_of pos a)
          (st_mismatch st ++ mismatch_of pos a)
          (filter (fun r => survives_a pos r a) (opera_unmatched st))
          (filter (fun r => survives_b pos r a) (pos_unmatched st)).

(** The loop state after the rows [opera], none of which raises. *)
Definition after_rows (pos : list Series) (st : State) (opera : list Series) : State :=
  mkState (st_matched st ++ flat_map (match_of pos) opera)
          (st_mismatch st ++ flat_map (mismatch_of pos) opera)
          (filter (fun r => forallb (survives_a pos r) opera) (opera_unmatched st))
          (filter (fun r => forallb (survives_b pos r) opera) (pos_unmatched st)).

(** The result of a run that does not raise. *)
Definition outcome (opera pos : list Series) : Results :=
  mkResults (flat_map (match_of pos) opera)
            (filter (fun r => forallb (survives_a pos r) opera) opera)
            (filter (fun r => forallb (survives_b pos r) opera) pos)
            (flat_map (mismatch_of pos) opera).

Definition parsed (r : Series) : bool := negb (is_nan (amount r)).

(** ** The ledgers of the scenarios *)

Definition ledger (rs : list (float * string)) : DataFrame :=
  mkDataFrame ["amount"; "id"] (map (fun r => [CNum (fst r); CStr (snd r)]) rs).

Definition record (x : float) (id : string) : Series :=
  [("amount", CNum x); ("id", CStr id)].


(** ** More closed forms *)

(** The Opera row [a] finds an exact match in the first scan. *)
Definition has_match (pos : list Series) (a : Series) : bool :=
  match find (exact_test a) pos with
  | Some _ => true
  | None => false
  end.


(** A row with every column but the amount forgotten, and a result with the
    rows of its four lists treated so. *)
Definition amount_only (r : Series) : Series := [("amount", CNum (amount r))].

Definition amounts_of (res : Results) : Results :=
  mkResults
    (map (fun m => mkMatch (amount_only (m_opera m)) (amount_only (m_pos m))
                           (m_amount m)) (matched res))
    (map amount_only (unmatched_opera res))
    (map amount_only (unmatched_pos res))
    (map (fun m => mkMismatch (amount_only (mm_opera m)) (amount_only (mm_pos m))
                              (mm_difference m)) (amount_mismatch res)).

(** ** The tables of the examples *)

(** U+00A0, the no-break space. *)
Definition no_break_space : string :=
  String (ascii_of_N 194) (String (ascii_of_N 160) "").

(** U+0663, the Arabic-Indic digit three. *)
Definition arabic_three : string :=
  String (ascii_of_N 217) (String (ascii_of_N 163) "").

(** The text of an amount beyond the binary64 range: -1 followed by 309
    zeros. *)
Definition overflowing_debit : string :=
  string_of_list_ascii ("-"%char :: "1"%char :: repeat "0"%char 309).

(** A table of two small and large amounts, as text and as normalised. *)
Definition priced : DataFrame :=
  mkDataFrame [" Amount "; "ID"]
    [[CStr "$0.00001"; CStr "A1"];
     [CStr "10,000,000,000,000,000.0"; CStr "A2"]].

Definition priced_once : DataFrame :=
  mkDataFrame ["amount"; "id"]
    [[CNum 1e-05; CStr "A1"]; [CNum 1e16; CStr "A2"]].

Definition priced_twice : DataFrame :=
  mkDataFrame ["amount"; "id"]
    [[CNum nan; CStr "A1"]; [CNum 116; CStr "A2"]].

(** ** Display and export (lines 127-224)

    A call of [display_results] is modelled by the elements it renders, in
    order, and the exception that ends it, if any.  The value of the download
    button and the text of the clock are inputs. *)

Inductive error : Type :=
| Builtin (e : exn)              (* raised by [reconcile_transactions] or a dict *)
| NameError (name : string)      (* a global name that is not bound *)
| ReaderError (message : string). (* raised by [pd.read_excel] or [pd.read_csv] *)

Inductive sheet : Type :=
| TableSheet (name : string) (header : list string) (body : list (list cell))
| RecordSheet (name : string) (records : list Series).

Inductive element : Type :=
| PageConfig (page_title layout : string)
| Markdown (body : string) (unsafe_allow_html : bool)
| Title (text : string)
| Header (text : string)
| Subheader (text : string)
| Write (text : string)
| FileUploader (label : string) (types : list string)
| Button (label : string)
| Metric (label : string) (value : nat)
| Dataframe (header : list string) (body : list (list cell))
| RecordsFrame (records : list Series)
| DownloadButton (label : string) (data : list sheet) (file_name mime : string)
| ErrorBox (e : error).          (* [st.error(f"Error processing files: {str(e)}")] *)

(** A row's [to_dict()]: with a repeated label the last value stays. *)
Definition dict_lookup (k : string) (d : Series) : option cell := lookup k (rev d).

(** [d.get(k, 'N/A')]. *)
Definition dict_get (k : string) (d : Series) : cell :=
  match dict_lookup k d with
  | Some v => v
  | None => CStr "N/A"
  end.

(** [d[k]]. *)
Definition getitem (k : string) (d : Series) : result cell :=
  match dict_lookup k d with
  | Some v => Ok v
  | None => Raise (KeyError k)
  end.

Fixpoint traverse {A B : Type} (f : A -> result B) (l : list A) : result (list B) :=
  match l with
  | [] => Ok []
  | x :: l' =>
      y <- f x ;;
      ys <- traverse f l' ;;
      Ok (y :: ys)
  end.

(** Lines 146-151 and 196-201: one row of the table of matches. *)
Definition matched_header : list string :=
  ["Amount"; "Opera Transaction ID"; "POS Transaction ID"; "Date"].

Definition matched_row (m : MatchPair) : list cell :=
  [CNum (m_amount m);
   dict_get "transaction_id" (m_opera m);
   dict_get "transaction_id" (m_pos m);
   dict_get "date" (m_opera m)].

(** Lines 159-165 and 205-211: one row of the table of mismatches. *)
Definition mismatch_header : list string :=
  ["Opera Amount"; "POS Amount"; "Difference";
   "Opera Transaction ID"; "POS Transaction ID"].

Definition mismatch_row (m : MismatchPair) : result (list cell) :=
  oa <- getitem "amount" (mm_opera m) ;;
  pa <- getitem "amount" (mm_pos m) ;;
  Ok [oa; pa; CNum (mm_difference m);
      dict_get "transaction_id" (mm_opera m);
      dict_get "transaction_id" (mm_pos m)].

(** The names bound at module level: the imports of lines 1-5 and the four
    functions. *)
Definition module_globals : list string :=
  ["st"; "pd"; "np"; "datetime"; "base64";
   "main"; "reconcile_transactions"; "display_results"; "generate_report"].

Definition global_name (n : string) : option error :=
  if existsb (String.eqb n) module_globals then None else Some (NameError n).

(** [pd.DataFrame([...])] of a list of rows with the same keys; the empty list
    gives a table without columns. *)
Definition table_sheet (name : string) (header : list string)
    (body : list (list cell)) : sheet :=
  match body with
  | [] => TableSheet name [] []
  | _ :: _ => TableSheet name header body
  end.

(** [generate_report(results)], lines 191-224.  [now] is the text of
    [datetime.now().strftime('%Y%m%d_%H%M%S')]. *)
Definition generate_report (results : Results) (now : string)
    : list element * option error :=
  match global_name "io" with
  | Some e => ([], Some e)
  | None =>
      match traverse mismatch_row (amount_mismatch results) with
      | Raise e => ([], Some (Builtin e))
      | Ok mismatches =>
          ([DownloadButton "Download Excel Report"
              [table_sheet "Matched" matched_header
                 (map matched_row (matched results));
               table_sheet "Mismatches" mismatch_header mismatches;
               RecordSheet "Unmatched Opera" (unmatched_opera results);
               RecordSheet "Unmatched POS" (unmatched_pos results)]
              ("reconciliation_report_" ++ now ++ ".xlsx")
              "application/vnd.ms-excel"],
           None)
      end
  end.

(** The part of [display_results] up to the table of mismatches, lines
    130-157. *)
Definition summary (results : Results) : list element :=
  [Header "Reconciliation Results";
   Metric "Matched Transactions" (List.length (matched results));
   Metric "Amount Mismatches" (List.length (amount_mismatch results));
   Metric "Unmatched Opera" (List.length (unmatched_opera results));
   Metric "Unmatched POS" (List.length (unmatched_pos results));
   Subheader "Matched Transactions";
   match matched results with
   | [] => Write "No matched transactions found"
   | _ :: _ => Dataframe matched_header (map matched_row (matched results))
   end;
   Subheader "Amount Mismatches"].

(** Lines 170-188. *)
Definition unmatched_part (results : Results) : list element :=
  [Subheader "Unmatched Opera Transactions";
   match unmatched_opera results with
   | [] => Write "No unmatched Opera transactions"
   | _ :: _ => RecordsFrame (unmatched_opera results)
   end;
   Subheader "Unmatched POS Transactions";
   match unmatched_pos results with
   | [] => Write "No unmatched POS transactions"
   | _ :: _ => RecordsFrame (unmatched_pos results)
   end;
   Button "Download Reconciliation Report"].

(** [display_results(results)], lines 127-189; [download] is the value of the
    button of line 188. *)
Definition display_results (results : Results) (download : bool) (now : string)
    : list element * option error :=
  match
    match amount_mismatch results with
    | [] => Ok (Write "No amount mismatches found")
    | _ :: _ =>
        body <- traverse mismatch_row (amount_mismatch results) ;;
        Ok (Dataframe mismatch_header body)
    end
  with
  | Raise e => (summary results, Some (Builtin e))
  | Ok mismatches =>
      let page := summary results ++ mismatches :: unmatched_part results in
      if download then
        let '(more, err) := generate_report results now in (page ++ more, err)
      else (page, None)
  end.

(** * Properties *)

(** ** The loops in closed form *)

Lemma fuzzy_test_eq (python : bool) (a b : Series) :
  fuzzy_test python a b =
  if pair_raises python a b then Raise ZeroDivisionError else Ok (fuzzy_hit a b).
Proof.
  unfold fuzzy_test, pair_raises, fuzzy_hit, relative_difference, difference, truediv.
  destruct (0 <? abs (amount a - amount b))%float;
    destruct python; simpl; try reflexivity.
  destruct (amount a =? 0)%float; reflexivity.
Qed.

Lemma fuzzy_scan_eq (python : bool) (a : Series) (pos : list Series) :
  forall acc,
    fuzzy_scan python a pos acc =
    if existsb (pair_raises python a) pos then Raise ZeroDivisionError
    else Ok (acc ++ map (fun b => mkMismatch a b (difference a b))
                        (filter (fuzzy_hit a) pos)).
Proof.
  induction pos as [|b pos IH]; intros acc; simpl.
  - now rewrite app_nil_r.
  - rewrite fuzzy_test_eq.
    destruct (pair_raises python a b); simpl; [reflexivity|].
    rewrite IH. destruct (existsb (pair_raises python a) pos); [reflexivity|].
    destruct (fuzzy_hit a b); simpl; [|reflexivity].
    now rewrite <- app_assoc.
Qed.

Lemma filter_true {A : Type} (l : list A) : filter (fun _ => true) l = l.
Proof. induction l; simpl; congruence. Qed.

Lemma step_eq (python : bool) (pos : list Series) (st : State) (a : Series) :
  step python pos st a =
  if row_raises python pos a then Raise ZeroDivisionError
  else Ok (after_row pos st a).
Proof.
  unfold step, row_raises, after_row, match_of, mismatch_of, survives_a, survives_b.
  destruct (find (exact_test a) pos) as [b|]; simpl.
  - now rewrite app_nil_r.
  - rewrite fuzzy_scan_eq.
    destruct (existsb (pair_raises python a) pos); simpl; [reflexivity|].
    now rewrite app_nil_r, !filter_true.
Qed.

Lemma filter_filter {A : Type} (p q : A -> bool) (l : list A) :
  filter q (filter p l) = filter (fun x => p x && q x) l.
Proof.
  induction l as [|x l IH]; simpl; [reflexivity|].
  destruct (p x); simpl; [destruct (q x)|]; simpl; congruence.
Qed.

Lemma loop_eq (python : bool) (pos : list Series) (opera : list Series) :
  forall st,
    loop python pos st opera =
    if existsb (row_raises python pos) opera then Raise ZeroDivisionError
    else Ok (after_rows pos st opera).
Proof.
  induction opera as [|a opera IH]; intros st; simpl.
  - unfold after_rows; simpl. rewrite !app_nil_r, !filter_true.
    now destruct st.
  - rewrite step_eq.
    destruct (row_raises python pos a); simpl; [reflexivity|].
    rewrite IH.
    destruct (existsb (row_raises python pos) opera); [reflexivity|].
    unfold after_rows, after_row; simpl.
    now rewrite <- !app_assoc, !filter_filter.
Qed.

Lemma reconcile_rows_eq (python : bool) (opera pos : list Series) :
  reconcile_rows python opera pos =
  if existsb (row_raises python pos) opera then Raise ZeroDivisionError
  else Ok (outcome opera pos).
Proof.
  unfold reconcile_rows. rewrite loop_eq.
  destruct (existsb (row_raises python pos) opera); reflexivity.
Qed.

Lemma reconcile_rows_ok (python : bool) (opera pos : list Series) (res : Results) :
  reconcile_rows python opera pos = Ok res ->
  existsb (row_raises python pos) opera = false /\ res = outcome opera pos.
Proof.
  rewrite reconcile_rows_eq.
  destruct (existsb (row_raises python pos) opera); [discriminate|].
  intros H; injection H as <-; auto.
Qed.

Lemma in_matched (opera pos : list Series) (m : MatchPair) :
  In m (flat_map (match_of pos) opera) <->
  exists a b, In a opera /\ find (exact_test a) pos = Some b
              /\ m = mkMatch a b (amount a).
Proof.
  rewrite in_flat_map. unfold match_of. split.
  - intros (a & Ha & Hm). exists a.
    destruct (find (exact_test a) pos) as [b|]; simpl in Hm; [|tauto].
    destruct Hm as [<-|[]]. exists b; auto.
  - intros (a & b & Ha & Hf & ->). exists a. rewrite Hf. simpl. auto.
Qed.

Lemma in_mismatch (opera pos : list Series) (mm : MismatchPair) :
  In mm (flat_map (mismatch_of pos) opera) <->
  exists a b, In a opera /\ In b pos /\ find (exact_test a) pos = None
              /\ fuzzy_hit a b = true /\ mm = mkMismatch a b (difference a b).
Proof.
  rewrite in_flat_map. unfold mismatch_of. split.
  - intros (a & Ha & Hm).
    destruct (find (exact_test a) pos) eqn:Hf; simpl in Hm; [tauto|].
    apply in_map_iff in Hm as (b & <- & Hb). apply filter_In in Hb as [Hb Hh].
    exists a, b; auto.
  - intros (a & b & Ha & Hb & Hf & Hh & ->). exists a. rewrite Hf.
    split; [assumption|].
    apply (in_map (fun b => mkMismatch a b (difference a b))), filter_In; auto.
Qed.

(** ** IEEE facts, from the specification of the primitive operations *)

Section Rounding.
Variables prec emax : Z.

Lemma shr_1_nonneg (mrs : shr_record) :
  (0 <= shr_m mrs)%Z -> (0 <= shr_m (shr_1 mrs))%Z.
Proof.
  destruct mrs as [m r s]; simpl.
  destruct m as [|[p|p|]|[p|p|]]; simpl; lia.
Qed.

Lemma iter_shr_1_nonneg (p : positive) :
  forall mrs, (0 <= shr_m mrs)%Z -> (0 <= shr_m (iter_pos shr_1 p mrs))%Z.
Proof.
  induction p as [p IH|p IH|]; intros mrs H; simpl.
  - apply IH, IH, shr_1_nonneg, H.
  - apply IH, IH, H.
  - apply shr_1_nonneg, H.
Qed.

Lemma shr_fexp_nonneg (m e : Z) (l : location) :
  (0 <= m)%Z -> (0 <= shr_m (fst (shr_fexp prec emax m e l)))%Z.
Proof.
  intros H. unfold shr_fexp, shr.
  assert (H0 : (0 <= shr_m (shr_record_of_loc m l))%Z)
    by (destruct l as [|[]]; exact H).
  destruct (fexp prec emax (Zdigits2 m + e) - e)%Z; simpl; auto.
  now apply iter_shr_1_nonneg.
Qed.

Lemma round_nearest_even_nonneg (m : Z) (l : location) :
  (0 <= m)%Z -> (0 <= round_nearest_even m l)%Z.
Proof.
  intros H. destruct l as [|[]]; simpl; try assumption.
  - destruct (Z.even m); lia.
  - lia.
Qed.

(** Rounding a non-negative mantissa keeps the sign it is given. *)
Lemma binary_round_aux_sign (sx : bool) (mx ex : Z) (lx : location) :
  (0 <= mx)%Z ->
  binary_round_aux prec emax sx mx ex lx = S754_zero sx \/
  binary_round_aux prec emax sx mx ex lx = S754_infinity sx \/
  exists m e, binary_round_aux prec emax sx mx ex lx = S754_finite sx m e.
Proof.
  intros H. unfold binary_round_aux.
  pose proof (shr_fexp_nonneg mx ex lx H) as H1.
  destruct (shr_fexp prec emax mx ex lx) as [mrs' e']; simpl in H1.
  pose proof (shr_fexp_nonneg _ e' loc_Exact
                (round_nearest_even_nonneg _ (loc_of_shr_record mrs') H1)) as H2.
  destruct (shr_fexp prec emax _ e' loc_Exact) as [mrs'' e'']; simpl in H2.
  destruct (shr_m mrs'') as [|m|m]; [auto| |lia].
  destruct (e'' <=? emax - prec)%Z; eauto.
Qed.

Lemma SFdiv_core_nonneg (m1 m2 : positive) (e1 e2 : Z) :
  (0 <= fst (fst (SFdiv_core_binary prec emax (Zpos m1) e1 (Zpos m2) e2)))%Z.
Proof.
  unfold SFdiv_core_binary.
  set (s := (e1 - e2 - _)%Z).
  set (m' := match s with Zpos _ => Z.shiftl (Zpos m1) s | Z0 => Zpos m1 | Zneg _ => 0%Z end).
  assert (Hm : (0 <= m')%Z).
  { subst m'. destruct s; try lia. apply Z.shiftl_nonneg. lia. }
  pose proof (Z_div_mod m' (Zpos m2) eq_refl) as Hd.
  destruct (Z.div_eucl m' (Zpos m2)) as [q r]; simpl.
  destruct Hd as [Heq Hr]. nia.
Qed.

(** A positive number divided by a finite negative one is a negative zero, a
    negative number or minus infinity. *)
Lemma SFdiv_pos_neg (x : spec_float) (m : positive) (e : Z) :
  SFltb (S754_zero false) x = true ->
  let q := SFdiv prec emax x (S754_finite true m e) in
  q = S754_zero true \/ q = S754_infinity true \/
  exists m' e', q = S754_finite true m' e'.
Proof.
  destruct x as [s|[]| |[] mx ex]; simpl; try discriminate; auto.
  intros _.
  pose proof (SFdiv_core_nonneg mx m ex e) as H.
  destruct (SFdiv_core_binary prec emax (Zpos mx) ex (Zpos m) e) as [[mz ez] lz].
  simpl in H. now apply binary_round_aux_sign.
Qed.

Lemma SFdiv_abs_pos (s y : spec_float) :
  SFltb (S754_zero false) (SFdiv prec emax (SFabs s) y) = true ->
  SFltb (S754_zero false) (SFabs s) = true.
Proof.
  destruct s as [?|?| |? ? ?]; simpl; try reflexivity;
    destruct y as [?|?| |? ? ?]; simpl; discriminate.
Qed.

Lemma SFsub_nan_r (x : spec_float) : SFsub prec emax x S754_nan = S754_nan.
Proof. destruct x; reflexivity. Qed.
End Rounding.

Lemma SFcompare_refl (x : spec_float) :
  x <> S754_nan -> SFcompare x x = Some Eq.
Proof.
  destruct x as [?|[]| |[] m e]; simpl; try congruence;
    intros _; now rewrite Z.compare_refl, Pos.compare_cont_refl.
Qed.

Lemma SFcompare_antisym (x y : spec_float) :
  SFcompare y x = option_map CompOpp (SFcompare x y).
Proof.
  destruct x as [[]|[]| |[] mx ex], y as [[]|[]| |[] my ey]; simpl; try reflexivity;
    pose proof (Z.compare_antisym ex ey) as Hz;
    pose proof (Pos.compare_cont_antisym my mx Eq) as Hp; simpl in Hp;
    rewrite Hz, <- Hp; destruct (ex ?= ey)%Z; simpl; try reflexivity;
    destruct (Pos.compare_cont Eq my mx); reflexivity.
Qed.

Lemma is_nan_eq (x : float) : is_nan x = true -> x = nan.
Proof.
  unfold is_nan. rewrite eqb_spec. unfold SFeqb. intros H.
  rewrite <- (SF2Prim_Prim2SF x).
  destruct (Prim2SF x) as [?|?| |? ? ?] eqn:E; try reflexivity;
    rewrite SFcompare_refl in H; discriminate.
Qed.

Lemma leb_not_ltb (x y : float) : (x <=? y)%float = true -> (y <? x)%float = false.
Proof.
  rewrite leb_spec, ltb_spec. unfold SFleb, SFltb.
  rewrite (SFcompare_antisym (Prim2SF x) (Prim2SF y)).
  destruct (SFcompare (Prim2SF x) (Prim2SF y)) as [[]|]; simpl; congruence.
Qed.

Lemma difference_nan_l (a b : Series) :
  amount a = nan -> Prim2SF (difference a b) = S754_nan.
Proof.
  intros H. unfold difference. now rewrite abs_spec, sub_spec, H.
Qed.

Lemma difference_nan_r (a b : Series) :
  amount b = nan -> Prim2SF (difference a b) = S754_nan.
Proof.
  intros H. unfold difference. rewrite abs_spec, sub_spec, H.
  change (Prim2SF nan) with S754_nan. unfold SF64sub. now rewrite SFsub_nan_r.
Qed.

Lemma nan_not_lt (x y : float) :
  Prim2SF x = S754_nan -> (x <? y)%float = false /\ (y <? x)%float = false.
Proof.
  intros H. rewrite !ltb_spec, H. split; [reflexivity|].
  unfold SFltb. now destruct (Prim2SF y).
Qed.

(** A row without a parsed amount passes neither test, on either side. *)
Lemma nan_tests (python : bool) (a b : Series) :
  is_nan (amount a) = true \/ is_nan (amount b) = true ->
  exact_test a b = false /\ fuzzy_test python a b = Ok false
  /\ pair_raises python a b = false /\ fuzzy_hit a b = false.
Proof.
  intros H.
  assert (Hd : Prim2SF (difference a b) = S754_nan).
  { destruct H as [H|H]; apply is_nan_eq in H;
      [now apply difference_nan_l | now apply difference_nan_r]. }
  assert (H1 : exact_test a b = false) by (apply (nan_not_lt _ 0.01%float Hd)).
  assert (H2 : (0 <? difference a b)%float = false) by (apply (nan_not_lt _ 0%float Hd)).
  assert (H3 : pair_raises python a b = false)
    by (unfold pair_raises; rewrite H2; now destruct python).
  assert (H4 : fuzzy_hit a b = false) by (unfold fuzzy_hit; now rewrite H2).
  rewrite fuzzy_test_eq, H3, H4. auto.
Qed.

(** The quotient of a positive difference by a finite negative amount is not
    positive, hence below 0.05. *)
Lemma negative_quotient (d x : float) :
  (0 <? d)%float = true -> (x <? 0)%float = true -> is_infinity x = false ->
  (d / x <? 0.05)%float = true /\ (d / x <=? 0)%float = true.
Proof.
  rewrite !ltb_spec, leb_spec, div_spec. unfold is_infinity. rewrite eqb_spec, abs_spec.
  change (Prim2SF 0) with (S754_zero false).
  change (Prim2SF infinity) with (S754_infinity false).
  intros Hd Hx Hi.
  destruct (Prim2SF x) as [?|[]| |[] m e]; try discriminate.
  assert (H05 : exists m5 e5, Prim2SF 0.05 = S754_finite false m5 e5)
    by (do 2 eexists; vm_compute; reflexivity).
  destruct H05 as (m5 & e5 & ->).
  destruct (SFdiv_pos_neg prec emax _ m e Hd) as [H|[H|(m' & e' & H)]];
    unfold SF64div; rewrite H; split; reflexivity.
Qed.

(** A positive quotient comes from a positive difference. *)
Lemma positive_quotient (a b : Series) :
  (0 <? relative_difference a b)%float = true ->
  (0 <? difference a b)%float = true.
Proof.
  unfold relative_difference, difference.
  rewrite !ltb_spec, div_spec, abs_spec.
  change (Prim2SF 0) with (S754_zero false).
  apply SFdiv_abs_pos.
Qed.

(** ** Normalised amounts *)


Lemma normalize_ok (df df' : DataFrame) :
  normalize df = Ok df' ->
  exists j, positions "amount" 0 (columns df') = [j] /\
            columns df' = map (fun c => strip (lower c)) (columns df) /\
            rows df' = map (update j coerce) (rows df).
Proof.
  unfold normalize.
  destruct (positions "amount" 0 _) as [|j [|? ?]] eqn:E; try discriminate.
  intros H; injection H as <-. exists j; simpl; auto.
Qed.

(** Amount cells as lines 76-77 read them: a currency text, a text without a
    digit, a digit of another script (kept by the pattern, refused by the
    reader), a float of 17 digits (read back from its first 16 decimals), a
    number beyond the range, and a float printed with an exponent. *)
Lemma amount_cells :
  coerce (CStr "$1,234.50") = CNum 1234.5
  /\ coerce (CStr "n/a") = CNum nan
  /\ coerce (CStr (arabic_three ++ "5")%string) = CNum nan
  /\ coerce (CNum 0.30000000000000004) = CNum 0.3
  /\ coerce (CStr overflowing_debit) = CNum neg_infinity
  /\ coerce (CNum 1e-05) = CNum nan.
Proof. repeat split; vm_compute; reflexivity. Qed.

(** ** Scenarios *)

(** C1, as the spec states it, fails: for A = [{amount: 100.00, id: A1}] and
    B = [{amount: 104.00, id: B1}] no result has the one mismatch pair
    together with two empty unmatched lists. *)
Lemma scenario_104_unmatched_not_empty :
  ~ exists res,
      reconcile_transactions (ledger [(100%float, "A1")])
                             (ledger [(104%float, "B1")]) = Ok res
      /\ amount_mismatch res =
         [mkMismatch (record 100%float "A1") (record 104%float "B1") 4%float]
      /\ matched res = []
      /\ unmatched_opera res = [] /\ unmatched_pos res = [].
Proof.
  intros (res & H & _ & _ & Ha & _).
  vm_compute in H. injection H as <-. discriminate Ha.
Qed.

(** C1 (amended): for A = [{amount: 100.00, id: A1}] and
    B = [{amount: 104.00, id: B1}] the run returns one mismatch pair (A1, B1)
    with difference 4.00 and no match; the fuzzy pass removes nothing from the
    working copies, so A1 and B1 are also returned as unmatched. *)
Theorem scenario_104 :
  reconcile_transactions (ledger [(100%float, "A1")]) (ledger [(104%float, "B1")]) =
  Ok {| matched := [];
        unmatched_opera := [record 100%float "A1"];
        unmatched_pos := [record 104%float "B1"];
        amount_mismatch :=
          [mkMismatch (record 100%float "A1") (record 104%float "B1") 4%float] |}.
Proof. vm_compute. reflexivity. Qed.

(** C6, as the spec states it, fails: for A = [50 A1, 50 A2] and B = [50 B1]
    no result has exactly one match pair and [A2] left unmatched. *)
Lemma scenario_duplicates_not_one_pair :
  ~ exists res,
      reconcile_transactions (ledger [(50%float, "A1"); (50%float, "A2")])
                             (ledger [(50%float, "B1")]) = Ok res
      /\ List.length (matched res) = 1
      /\ unmatched_opera res = [record 50%float "A2"]
      /\ unmatched_pos res = [].
Proof.
  intros (res & H & Hm & _).
  vm_compute in H. injection H as <-. discriminate Hm.
Qed.

(** C6 (amended): for A = [50 A1, 50 A2] and B = [50 B1] the first scan runs
    over all of B for every row of A, so both A1 and A2 are matched with B1:
    two match pairs, and both unmatched lists are empty. *)
Theorem scenario_duplicates :
  reconcile_transactions (ledger [(50%float, "A1"); (50%float, "A2")])
                         (ledger [(50%float, "B1")]) =
  Ok {| matched := [mkMatch (record 50%float "A1") (record 50%float "B1") 50%float;
                    mkMatch (record 50%float "A2") (record 50%float "B1") 50%float];
        unmatched_opera := [];
        unmatched_pos := [];
        amount_mismatch := [] |}.
Proof. vm_compute. reflexivity. Qed.

Lemma zero_difference (x y : float) :
  (x =? 0)%float = true -> is_nan y = false ->
  (abs (x - y) <? 0.01)%float = false ->
  (0 <? abs (x - y))%float = true.
Proof.
  unfold is_nan. rewrite !ltb_spec, !eqb_spec, abs_spec, sub_spec.
  change (Prim2SF 0) with (S754_zero false).
  assert (H01 : exists m e, Prim2SF 0.01 = S754_finite false m e)
    by (do 2 eexists; vm_compute; reflexivity).
  destruct H01 as (m1 & e1 & ->).
  intros Hx Hy Hd.
  destruct (Prim2SF x) as [sx|[]| |[] ? ?]; try discriminate Hx.
  destruct (Prim2SF y) as [sy|sy| |sy my ey]; try discriminate Hy;
    try reflexivity; destruct sx, sy; discriminate Hd.
Qed.

(** Whenever both tables hand out Python floats, an Opera row with amount zero
    and no exact match makes the run raise as soon as the POS table has a row
    with a parsed amount. *)
Lemma zero_amount_raises (opera pos : list Series) (a b : Series) :
  In a opera -> In b pos ->
  (amount a =? 0)%float = true -> find (exact_test a) pos = None ->
  is_nan (amount b) = false ->
  reconcile_rows true opera pos = Raise ZeroDivisionError.
Proof.
  intros Ha Hb Hz Hf Hn. rewrite reconcile_rows_eq.
  replace (existsb (row_raises true pos) opera) with true; [reflexivity|].
  symmetry. apply existsb_exists. exists a. split; [assumption|].
  unfold row_raises. rewrite Hf. apply existsb_exists. exists b.
  split; [assumption|]. unfold pair_raises, difference. rewrite Hz.
  rewrite (zero_difference _ _ Hz Hn (find_none _ _ Hf b Hb)). reflexivity.
Qed.

(** C9: for A = [{amount: 0, id: A1}] and B = [{amount: 1, id: B1}] the row A1
    has no exact match, the two tables hand out Python floats, and the
    division of line 114 raises ZeroDivisionError out of the run. *)
Theorem scenario_zero_amount_raises :
  reconcile_transactions (ledger [(0%float, "A1")]) (ledger [(1%float, "B1")]) =
  Raise ZeroDivisionError.
Proof. vm_compute. reflexivity. Qed.

(** ** The two thresholds *)

(** C2: in a run that returns, a pair emitted in [matched] is never emitted in
    [amount_mismatch]; and for every Opera row [a] without an exact match and
    every POS row [b] whose relative difference [|a - b| / a] is strictly
    between 0 and 0.05, the pair (a, b) is in [amount_mismatch]. *)
Theorem fuzzy_threshold (python : bool) (opera pos : list Series) (res : Results) :
  reconcile_rows python opera pos = Ok res ->
  (forall m mm, In m (matched res) -> In mm (amount_mismatch res) ->
     ~ (mm_opera mm = m_opera m /\ mm_pos mm = m_pos m))
  /\
  (forall a b, In a opera -> In b pos -> find (exact_test a) pos = None ->
     (0 <? relative_difference a b)%float = true ->
     (relative_difference a b <? 0.05)%float = true ->
     In (mkMismatch a b (difference a b)) (amount_mismatch res)).
Proof.
  intros H. apply reconcile_rows_ok in H as [_ ->]. simpl. split.
  - intros m mm Hm Hmm [Ha _].
    apply in_matched in Hm as (a & b & _ & Hf & ->).
    apply in_mismatch in Hmm as (a' & b' & _ & _ & Hf' & _ & ->).
    simpl in Ha. subst a'. congruence.
  - intros a b Ha Hb Hf H0 H5.
    apply in_mismatch. exists a, b. repeat split; auto.
    unfold fuzzy_hit. now rewrite (positive_quotient a b H0), H5.
Qed.

(** A run on which C2 speaks: 100 against 104 and an exactly matching pair. *)
Lemma fuzzy_threshold_witness :
  (forall m mm,
     In m [mkMatch (record 7%float "A2") (record 7%float "B2") 7%float] ->
     In mm [mkMismatch (record 100%float "A1") (record 104%float "B1") 4%float] ->
     ~ (mm_opera mm = m_opera m /\ mm_pos mm = m_pos m))
  /\
  (forall a b,
     In a [record 100%float "A1"; record 7%float "A2"] ->
     In b [record 104%float "B1"; record 7%float "B2"] ->
     find (exact_test a) [record 104%float "B1"; record 7%float "B2"] = None ->
     (0 <? relative_difference a b)%float = true ->
     (relative_difference a b <? 0.05)%float = true ->
     In (mkMismatch a b (difference a b))
        [mkMismatch (record 100%float "A1") (record 104%float "B1") 4%float]).
Proof.
  exact (fuzzy_threshold true
           [record 100%float "A1"; record 7%float "A2"]
           [record 104%float "B1"; record 7%float "B2"]
           (mkResults [mkMatch (record 7%float "A2") (record 7%float "B2") 7%float]
                      [record 100%float "A1"] [record 104%float "B1"]
                      [mkMismatch (record 100%float "A1") (record 104%float "B1") 4%float])
           eq_refl).
Defined.

Lemma eqb_self (x : float) : is_nan x = false -> (x =? x)%float = true.
Proof. unfold is_nan. now destruct (x =? x)%float. Qed.

Lemma exact_test_parsed (a b : Series) :
  exact_test a b = true -> is_nan (amount a) = false /\ is_nan (amount b) = false.
Proof.
  intros H. split.
  - destruct (is_nan (amount a)) eqn:E; [|reflexivity].
    destruct (nan_tests false a b (or_introl E)) as [H' _]. congruence.
  - destruct (is_nan (amount b)) eqn:E; [|reflexivity].
    destruct (nan_tests false a b (or_intror E)) as [H' _]. congruence.
Qed.

(** C3: for single-row inputs [a] and [b]: when [|a - b| < 0.01] the run
    returns with the one match pair (a, b) (and nothing else); when
    [|a - b| >= 0.01] no run puts anything in [matched]; and in any run that
    returns, (a, b) is in [matched] exactly when [|a - b| < 0.01]. *)
Theorem exactness_threshold (python : bool) (a b : Series) :
  ((difference a b <? 0.01)%float = true ->
     reconcile_rows python [a] [b] =
     Ok (mkResults [mkMatch a b (amount a)] [] [] []))
  /\
  ((0.01 <=? difference a b)%float = true ->
     forall res, reconcile_rows python [a] [b] = Ok res -> matched res = [])
  /\
  (forall res, reconcile_rows python [a] [b] = Ok res ->
     (In (mkMatch a b (amount a)) (matched res)
      <-> (difference a b <? 0.01)%float = true)).
Proof.
  assert (Hno : (difference a b <? 0.01)%float = false ->
                forall res, reconcile_rows python [a] [b] = Ok res -> matched res = []).
  { intros Hd res H. apply reconcile_rows_ok in H as [_ ->].
    unfold outcome, match_of; simpl. fold (difference a b).
    unfold exact_test. fold (difference a b). now rewrite Hd. }
  repeat split.
  - intros Hd. rewrite reconcile_rows_eq.
    destruct (exact_test_parsed a b Hd) as [Na Nb].
    unfold outcome, row_raises, match_of, mismatch_of, survives_a, survives_b,
      amount_differs; simpl.
    unfold exact_test. fold (difference a b). rewrite Hd. simpl.
    now rewrite (eqb_self _ Na), (eqb_self _ Nb).
  - intros Hd. apply Hno, leb_not_ltb, Hd.
  - intros Hin. destruct (difference a b <? 0.01)%float eqn:Hd; [reflexivity|].
    rewrite (Hno eq_refl res H) in Hin. destruct Hin.
  - intros Hd. apply reconcile_rows_ok in H as [_ ->].
    unfold outcome, match_of; simpl.
    unfold exact_test. fold (difference a b). rewrite Hd. simpl. auto.
Qed.

(** The scenario of the spec on which C3 speaks: 100.00 against 100.005. *)
Lemma exactness_threshold_witness :
  reconcile_rows true [record 100%float "A1"] [record 100.005%float "B1"] =
  Ok (mkResults [mkMatch (record 100%float "A1") (record 100.005%float "B1") 100%float]
                [] [] []).
Proof.
  apply (proj1 (exactness_threshold true (record 100%float "A1")
                                    (record 100.005%float "B1"))).
  vm_compute. reflexivity.
Defined.

(** ** The working copies *)

(** C4: on an exact match of [a] with [b] the loop body keeps in the Opera
    working copy exactly the rows whose amount differs from [a]'s, and in the
    POS working copy exactly the rows whose amount differs from [b]'s; and the
    two unmatched lists of a returned result are the working copies the loop
    ends with, that is, the inputs without every row removed on the way. *)
Theorem removal_by_amount (python : bool) (opera pos : list Series) :
  (forall st a b, find (exact_test a) pos = Some b ->
     exists st',
       step python pos st a = Ok st'
       /\ opera_unmatched st' =
          filter (fun r => negb (amount r =? amount a)%float) (opera_unmatched st)
       /\ pos_unmatched st' =
          filter (fun r => negb (amount r =? amount b)%float) (pos_unmatched st)
       /\ (forall r, In r (opera_unmatched st') <->
                     In r (opera_unmatched st) /\ (amount r =? amount a)%float = false)
       /\ (forall r, In r (pos_unmatched st') <->
                     In r (pos_unmatched st) /\ (amount r =? amount b)%float = false))
  /\
  (forall res, reconcile_rows python opera pos = Ok res ->
     exists st,
       loop python pos (mkState [] [] opera pos) opera = Ok st
       /\ unmatched_opera res = opera_unmatched st
       /\ unmatched_pos res = pos_unmatched st
       /\ unmatched_opera res =
          filter (fun r => forallb (survives_a pos r) opera) opera
       /\ unmatched_pos res =
          filter (fun r => forallb (survives_b pos r) opera) pos).
Proof.
  split.
  - intros st a b Hf. unfold step. rewrite Hf. eexists. split; [reflexivity|].
    simpl. unfold amount_differs.
    split; [reflexivity|]. split; [reflexivity|].
    split; intros r; rewrite filter_In, negb_true_iff; reflexivity.
  - intros res H. unfold reconcile_rows in H.
    destruct (loop python pos (mkState [] [] opera pos) opera) as [st|e] eqn:E;
      [|discriminate].
    simpl in H. injection H as <-. exists st. simpl.
    rewrite loop_eq in E.
    destruct (existsb (row_raises python pos) opera); [discriminate|].
    injection E as <-. simpl. auto.
Qed.

(** A step on which C4 speaks: the working copy holds two rows of amount 50
    and one of amount 70; matching the first removes both rows of amount 50. *)
Lemma removal_by_amount_witness :
  exists st',
    step true [record 50%float "B1"]
         (mkState [] []
            [record 50%float "A1"; record 50%float "A2"; record 70%float "A3"]
            [record 50%float "B1"])
         (record 50%float "A1") = Ok st'
    /\ opera_unmatched st' = [record 70%float "A3"]
    /\ pos_unmatched st' = [].
Proof.
  destruct (proj1 (removal_by_amount true [] [record 50%float "B1"])
              (mkState [] []
                 [record 50%float "A1"; record 50%float "A2"; record 70%float "A3"]
                 [record 50%float "B1"])
              (record 50%float "A1") (record 50%float "B1") eq_refl)
    as (st' & Hs & Ho & Hp & _).
  exists st'. split; [exact Hs|]. split; [rewrite Ho | rewrite Hp]; reflexivity.
Defined.

(** ** Rows without a parsed amount *)

Lemma nan_never_equal (x y : float) : is_nan x = true -> (x =? y)%float = false.
Proof. intros H. apply is_nan_eq in H as ->. now rewrite eqb_spec. Qed.

Lemma find_exact_parsed (a : Series) (pos : list Series) :
  find (exact_test a) (filter parsed pos) = find (exact_test a) pos.
Proof.
  induction pos as [|b pos IH]; simpl; [reflexivity|].
  unfold parsed at 1. destruct (is_nan (amount b)) eqn:E; simpl.
  - destruct (nan_tests false a b (or_intror E)) as [-> _]. exact IH.
  - now rewrite IH.
Qed.

Lemma pair_raises_parsed (python : bool) (a : Series) (pos : list Series) :
  existsb (pair_raises python a) (filter parsed pos) =
  existsb (pair_raises python a) pos.
Proof.
  induction pos as [|b pos IH]; simpl; [reflexivity|].
  unfold parsed at 1. destruct (is_nan (amount b)) eqn:E; simpl.
  - destruct (nan_tests python a b (or_intror E)) as (_ & _ & -> & _). exact IH.
  - now rewrite IH.
Qed.

Lemma row_raises_unparsed (python : bool) (pos : list Series) (a : Series) :
  is_nan (amount a) = true -> row_raises python pos a = false.
Proof.
  intros E. unfold row_raises.
  destruct (find (exact_test a) pos); [reflexivity|].
  induction pos as [|b pos IH]; simpl; [reflexivity|].
  destruct (nan_tests python a b (or_introl E)) as (_ & _ & -> & _). exact IH.
Qed.

Lemma raises_parsed (python : bool) (opera pos : list Series) :
  existsb (row_raises python (filter parsed pos)) (filter parsed opera) =
  existsb (row_raises python pos) opera.
Proof.
  induction opera as [|a opera IH]; simpl; [reflexivity|].
  assert (Hrow : row_raises python (filter parsed pos) a = row_raises python pos a)
    by (unfold row_raises; now rewrite find_exact_parsed, pair_raises_parsed).
  unfold parsed at 2. destruct (is_nan (amount a)) eqn:E; simpl.
  - now rewrite (row_raises_unparsed python pos a E).
  - now rewrite Hrow, IH.
Qed.

(** C5: a cell that does not parse is given the amount NaN by normalisation,
    without an error.  A row [r] whose amount is NaN passes neither test
    against any row, and neither test raises for it; whether the run raises
    does not depend on the rows without a parsed amount; and in a run that
    returns, [r] is on neither side of any match or mismatch pair and, when it
    is a row of a table, it is in that table's unmatched list. *)
Theorem unparsed_rows_unmatched (python : bool) (opera pos : list Series) (r : Series) :
  is_nan (amount r) = true ->
  (forall c, parse_float (list_ascii_of_string (keep_numeric (astype_str c))) = None ->
             coerce c = CNum nan)
  /\ (forall x, exact_test r x = false /\ exact_test x r = false
             /\ fuzzy_test python r x = Ok false
             /\ fuzzy_test python x r = Ok false)
  /\ raises (reconcile_rows python opera pos) =
     raises (reconcile_rows python (filter parsed opera) (filter parsed pos))
  /\ (forall res, reconcile_rows python opera pos = Ok res ->
        (forall m, In m (matched res) -> m_opera m <> r /\ m_pos m <> r)
        /\ (forall mm, In mm (amount_mismatch res) ->
              mm_opera mm <> r /\ mm_pos mm <> r)
        /\ (In r opera -> In r (unmatched_opera res))
        /\ (In r pos -> In r (unmatched_pos res))).
Proof.
  intros E. split; [|split; [|split]].
  - intros c Hc. unfold coerce, to_numeric. now rewrite Hc.
  - intros x.
    destruct (nan_tests python r x (or_introl E)) as (H1 & H2 & _).
    destruct (nan_tests python x r (or_intror E)) as (H3 & H4 & _). auto.
  - rewrite !reconcile_rows_eq, raises_parsed.
    destruct (existsb (row_raises python pos) opera); reflexivity.
  - intros res H. apply reconcile_rows_ok in H as [_ ->]. simpl.
    split; [|split; [|split]].
    + intros m Hm. apply in_matched in Hm as (a & b & _ & Hf & ->). simpl.
      apply find_some in Hf as [_ Hf]. apply exact_test_parsed in Hf as [Na Nb].
      split; intros ->; congruence.
    + intros mm Hmm.
      apply in_mismatch in Hmm as (a & b & _ & _ & _ & Hh & ->). simpl.
      split; intros ->.
      * destruct (nan_tests python r b (or_introl E)) as (_ & _ & _ & H'). congruence.
      * destruct (nan_tests python a r (or_intror E)) as (_ & _ & _ & H'). congruence.
    + intros Hr. apply filter_In. split; [assumption|].
      apply forallb_forall. intros a _. unfold survives_a.
      destruct (find (exact_test a) pos); [|reflexivity].
      unfold amount_differs. now rewrite (nan_never_equal _ (amount a) E).
    + intros Hr. apply filter_In. split; [assumption|].
      apply forallb_forall. intros a _. unfold survives_b.
      destruct (find (exact_test a) pos) as [b|]; [|reflexivity].
      unfold amount_differs. now rewrite (nan_never_equal _ (amount b) E).
Qed.

(** A run on which C5 speaks: one row of A has the amount NaN. *)
Lemma unparsed_rows_unmatched_witness :
  is_nan (amount (record nan "A2")) = true
  /\ In (record nan "A2")
        (filter (fun r => forallb (survives_a [record 50%float "B1"] r)
                            [record 50%float "A1"; record nan "A2"])
                [record 50%float "A1"; record nan "A2"]).
Proof.
  split; [reflexivity|].
  pose proof (unparsed_rows_unmatched true
                [record 50%float "A1"; record nan "A2"] [record 50%float "B1"]
                (record nan "A2") eq_refl) as (_ & _ & _ & H).
  apply (H (outcome [record 50%float "A1"; record nan "A2"] [record 50%float "B1"])
           eq_refl).
  right; left; reflexivity.
Defined.

(** ** Errors *)


(** Labels are compared after [str.lower] and [str.strip] on code points: a
    label followed by U+00A0 is the amount column, and so is a label in mixed
    case between blanks. *)
Lemma amount_label_with_no_break_space :
  normalize (mkDataFrame [("Amount" ++ no_break_space)%string; " AMOUNT"]
                         [[CNum 5; CNum 6]])
  = Raise AttributeError
  /\ normalize (mkDataFrame [("Amount" ++ no_break_space)%string; "ID"]
                            [[CStr "5"; CStr "A1"]])
     = Ok (mkDataFrame ["amount"; "id"] [[CNum 5; CStr "A1"]]).
Proof. split; vm_compute; reflexivity. Qed.



(** ** Negative amounts *)

Lemma negative_not_zero (x : float) : (x <? 0)%float = true -> (x =? 0)%float = false.
Proof.
  rewrite ltb_spec, eqb_spec. unfold SFltb, SFeqb.
  destruct (SFcompare (Prim2SF x) (Prim2SF 0)) as [[]|]; congruence.
Qed.

(** The quotient of line 114 by an infinite amount is NaN: the row passes the
    test against no row, and nothing is raised for it. *)
Lemma infinite_amount_no_hit (a b : Series) :
  is_infinity (amount a) = true ->
  fuzzy_hit a b = false /\ forall python, fuzzy_test python a b = Ok false.
Proof.
  intros Hi.
  assert (Hh : fuzzy_hit a b = false).
  { unfold fuzzy_hit, relative_difference, difference.
    apply andb_false_intro2.
    revert Hi. unfold is_infinity.
    rewrite ltb_spec, div_spec, !abs_spec, sub_spec, eqb_spec, abs_spec.
    change (Prim2SF infinity) with (S754_infinity false).
    destruct (Prim2SF (amount a)) as [s|s| |s m e]; try discriminate; intros _.
    destruct (Prim2SF (amount b)) as [s'|s'| |s' m' e']; destruct s;
      try destruct s'; reflexivity. }
  split; [exact Hh|]. intros python. rewrite fuzzy_test_eq, Hh.
  replace (pair_raises python a b) with false; [reflexivity|].
  unfold pair_raises. replace (amount a =? 0)%float with false;
    [now rewrite andb_false_r|].
  revert Hi. unfold is_infinity. rewrite !eqb_spec, abs_spec.
  change (Prim2SF infinity) with (S754_infinity false).
  change (Prim2SF 0) with (S754_zero false).
  destruct (Prim2SF (amount a)) as [s|s| |s m e]; try discriminate;
    destruct s; reflexivity.
Qed.

(** C10, as stated, fails.  The amount text -1 followed by 309 zeros is read
    as minus infinity: a strictly negative amount without an exact match,
    which differs from the POS amount 1; but the quotient inf / -inf is NaN,
    so the run returns without a pair for the row. *)
Lemma negative_infinite_amount_pairs_with_none :
  reconcile_transactions
    (mkDataFrame ["amount"; "id"] [[CStr overflowing_debit; CStr "A1"]])
    (ledger [(1%float, "B1")])
  = Ok {| matched := [];
          unmatched_opera := [record neg_infinity "A1"];
          unmatched_pos := [record 1%float "B1"];
          amount_mismatch := [] |}
  /\ (amount (record neg_infinity "A1") <? 0)%float = true
  /\ find (exact_test (record neg_infinity "A1")) [record 1%float "B1"] = None
  /\ (0 <? difference (record neg_infinity "A1") (record 1%float "B1"))%float = true
  /\ ~ (forall (python : bool) (opera pos : list Series) (a b : Series),
          In a opera -> In b pos ->
          (amount a <? 0)%float = true ->
          find (exact_test a) pos = None ->
          (0 <? difference a b)%float = true ->
          forall res, reconcile_rows python opera pos = Ok res ->
                      In (mkMismatch a b (difference a b)) (amount_mismatch res)).
Proof.
  split; [vm_compute; reflexivity|]. split; [reflexivity|].
  split; [reflexivity|]. split; [reflexivity|]. intros H.
  apply (H true [record neg_infinity "A1"] [record 1%float "B1"]
           (record neg_infinity "A1") (record 1%float "B1")
           ltac:(left; reflexivity) ltac:(left; reflexivity)
           eq_refl eq_refl eq_refl
           (outcome [record neg_infinity "A1"] [record 1%float "B1"]) eq_refl).
Qed.

(** C10 (amended): for an Opera row [a] with a strictly negative amount and no
    exact match, and a POS row [b] with [|a - b| > 0].  When the amount of [a]
    is finite, (a, b) passes the test of line 114 without an error, because
    the quotient [|a - b| / a] is not positive and so below 0.05, however
    large the difference; and in a run that returns the pair (a, b) is in
    [amount_mismatch].  When the amount of [a] is minus infinity the test
    fails without an error, and in a run that returns no pair of
    [amount_mismatch] has [a] on its Opera side. *)
Theorem finite_negative_amount_pairs_with_all
    (python : bool) (opera pos : list Series) (a b : Series) :
  In a opera -> In b pos ->
  (amount a <? 0)%float = true ->
  find (exact_test a) pos = None ->
  (0 <? difference a b)%float = true ->
  (is_infinity (amount a) = false ->
     fuzzy_test python a b = Ok true
     /\ (relative_difference a b <? 0.05)%float = true
     /\ (relative_difference a b <=? 0)%float = true
     /\ (forall res, reconcile_rows python opera pos = Ok res ->
            In (mkMismatch a b (difference a b)) (amount_mismatch res)))
  /\ (is_infinity (amount a) = true ->
     fuzzy_test python a b = Ok false
     /\ (forall res, reconcile_rows python opera pos = Ok res ->
            forall mm, In mm (amount_mismatch res) -> mm_opera mm <> a)).
Proof.
  intros Ha Hb Hneg Hf Hd. split.
  - intros Hfin.
    destruct (negative_quotient (difference a b) (amount a) Hd Hneg Hfin) as [Hq Hq0].
    fold (relative_difference a b) in Hq, Hq0.
    assert (Hh : fuzzy_hit a b = true) by (unfold fuzzy_hit; now rewrite Hd, Hq).
    split; [|split; [exact Hq|split; [exact Hq0|]]].
    + rewrite fuzzy_test_eq, Hh. unfold pair_raises.
      rewrite (negative_not_zero _ Hneg). now rewrite andb_false_r.
    + intros res H. apply reconcile_rows_ok in H as [_ ->]. simpl.
      apply in_mismatch. exists a, b. auto.
  - intros Hinf. split.
    + apply (infinite_amount_no_hit a b Hinf).
    + intros res H mm Hmm E. apply reconcile_rows_ok in H as [_ ->].
      simpl in Hmm. apply in_mismatch in Hmm as (a' & b' & _ & _ & _ & Hh & ->).
      simpl in E. subst a'.
      destruct (infinite_amount_no_hit a b' Hinf) as [Hh' _]. congruence.
Qed.

(** A run on which the amended C10 speaks: -5 against 1000000. *)
Lemma finite_negative_amount_pairs_with_all_witness :
  fuzzy_test true (record (-5)%float "A1") (record 1000000%float "B1") = Ok true
  /\ In (mkMismatch (record (-5)%float "A1") (record 1000000%float "B1")
                    (difference (record (-5)%float "A1") (record 1000000%float "B1")))
        [mkMismatch (record (-5)%float "A1") (record 1000000%float "B1") 1000005%float].
Proof.
  destruct (finite_negative_amount_pairs_with_all true
              [record (-5)%float "A1"] [record 1000000%float "B1"]
              (record (-5)%float "A1") (record 1000000%float "B1")
              (or_introl eq_refl) (or_introl eq_refl) eq_refl eq_refl eq_refl)
    as [H _].
  destruct (H eq_refl) as (Ht & _ & _ & Hin).
  split; [exact Ht|].
  apply (Hin (outcome [record (-5)%float "A1"] [record 1000000%float "B1"])).
  reflexivity.
Defined.

(** ** Normalising twice *)

(** C7: normalisation is not idempotent.  The table with the amount texts
    "$0.00001" and "10,000,000,000,000,000.0" normalises to the amounts 1e-05
    and 1e16.  Normalising that table again prints them as "1e-05" and
    "1e+16", deletes the "e" and the "+", and reads "1-05" and "116": the
    amounts become NaN and 116. *)
Theorem normalize_twice_changes_small_amount :
  normalize priced = Ok priced_once
  /\ normalize priced_once = Ok priced_twice
  /\ map astype_str [CNum 1e-05; CNum 1e16] = ["1e-05"; "1e+16"]
  /\ map keep_numeric ["1e-05"; "1e+16"] = ["1-05"; "116"]
  /\ map amount (iterrows priced_once) = [1e-05; 1e16]%float
  /\ map amount (iterrows priced_twice) = [nan; 116%float]
  /\ priced_twice <> priced_once.
Proof.
  repeat (split; [vm_compute; reflexivity|]).
  intros H.
  apply (f_equal (fun df => map parsed (iterrows df))) in H. discriminate H.
Qed.

(** * Further properties of the code *)

(** ** More IEEE facts *)

Lemma SFeqb_true (x y : spec_float) :
  SFeqb x y = true ->
  x = y \/ exists s s', x = S754_zero s /\ y = S754_zero s'.
Proof.
  unfold SFeqb.
  destruct x as [sx|[]| |[] mx ex], y as [sy|[]| |[] my ey]; simpl;
    try discriminate; eauto;
    destruct (Z.compare_spec ex ey) as [->| |]; try discriminate;
    destruct (Pos.compare_cont Eq mx my) eqn:E; try discriminate;
    apply Pos.compare_eq in E; subst; auto.
Qed.

Lemma SFsub_zero_abs (prec emax : Z) (s s' : bool) (b : spec_float) :
  SFabs (SFsub prec emax (S754_zero s) b) = SFabs (SFsub prec emax (S754_zero s') b).
Proof. destruct b as [[]|?| |? ? ?], s, s'; reflexivity. Qed.

(** Two amounts that [==] identifies have the same absolute difference to
    every amount. *)
Lemma equal_amounts_same_test (a r b : Series) :
  (amount r =? amount a)%float = true -> exact_test r b = exact_test a b.
Proof.
  rewrite eqb_spec. intros H. unfold exact_test.
  rewrite !ltb_spec, !abs_spec, !sub_spec.
  destruct (SFeqb_true _ _ H) as [->|(s & s' & -> & ->)]; [reflexivity|].
  unfold SF64sub. now rewrite (SFsub_zero_abs prec emax s s').
Qed.

Lemma SFcompare_some (x y : spec_float) :
  x <> S754_nan -> y <> S754_nan -> exists c, SFcompare x y = Some c.
Proof.
  destruct x as [?|[]| |[] ? ?], y as [?|[]| |[] ? ?]; simpl; intros; eauto;
    congruence.
Qed.

Lemma ltb_not_nan (x y : float) :
  (x <? y)%float = true -> Prim2SF x <> S754_nan /\ Prim2SF y <> S754_nan.
Proof.
  rewrite ltb_spec. unfold SFltb.
  destruct (Prim2SF x), (Prim2SF y); simpl; try discriminate; split; discriminate.
Qed.

(** A difference that is a number and not below 0.01 is at least 0.01. *)
Lemma not_below_is_above (d : float) :
  (0 <? d)%float = true -> (d <? 0.01)%float = false -> (0.01 <=? d)%float = true.
Proof.
  intros H0 H1. destruct (ltb_not_nan _ _ H0) as [_ Hd].
  rewrite ltb_spec in H1. rewrite leb_spec. unfold SFltb in H1. unfold SFleb.
  rewrite (SFcompare_antisym (Prim2SF d) (Prim2SF 0.01)).
  assert (Hn : Prim2SF 0.01 <> S754_nan) by (vm_compute; discriminate).
  destruct (SFcompare_some _ _ Hd Hn) as [c Hc]. rewrite Hc in *.
  destruct c; simpl; congruence.
Qed.

Lemma fuzzy_hit_parsed (a b : Series) :
  fuzzy_hit a b = true -> is_nan (amount a) = false /\ is_nan (amount b) = false.
Proof.
  intros H. split.
  - destruct (is_nan (amount a)) eqn:E; [|reflexivity].
    destruct (nan_tests false a b (or_introl E)) as (_ & _ & _ & H'). congruence.
  - destruct (is_nan (amount b)) eqn:E; [|reflexivity].
    destruct (nan_tests false a b (or_intror E)) as (_ & _ & _ & H'). congruence.
Qed.

(** ** Every Opera row is matched or unmatched *)

Lemma find_ext_in {A : Type} (p q : A -> bool) (l : list A) :
  (forall x, In x l -> p x = q x) -> find p l = find q l.
Proof.
  induction l as [|x l IH]; intros H; simpl; [reflexivity|].
  rewrite (H x (or_introl eq_refl)). destruct (q x); [reflexivity|].
  apply IH. intros y Hy. apply H. now right.
Qed.

Lemma survives_all (opera pos : list Series) (r : Series) :
  In r opera ->
  forallb (survives_a pos r) opera = negb (has_match pos r).
Proof.
  intros Hr. unfold has_match.
  destruct (find (exact_test r) pos) as [b|] eqn:Hf; simpl.
  - apply not_true_is_false. intros H. rewrite forallb_forall in H.
    specialize (H r Hr). unfold survives_a in H. rewrite Hf in H.
    apply find_some in Hf as [_ Hf]. apply exact_test_parsed in Hf as [Nr _].
    unfold amount_differs in H. now rewrite (eqb_self _ Nr) in H.
  - apply forallb_forall. intros a _. unfold survives_a.
    destruct (find (exact_test a) pos) as [b|] eqn:Ha; [|reflexivity].
    unfold amount_differs. destruct (amount r =? amount a)%float eqn:E; [|reflexivity].
    rewrite (find_ext_in (exact_test r) (exact_test a) pos) in Hf; [congruence|].
    intros x _. now apply equal_amounts_same_test.
Qed.

Lemma unmatched_opera_closed (opera pos : list Series) :
  filter (fun r => forallb (survives_a pos r) opera) opera =
  filter (fun r => negb (has_match pos r)) opera.
Proof. apply filter_ext_in. intros r Hr. now apply survives_all. Qed.

Lemma matched_length (opera pos : list Series) :
  List.length (flat_map (match_of pos) opera) =
  List.length (filter (has_match pos) opera).
Proof.
  induction opera as [|a opera IH]; simpl; [reflexivity|].
  rewrite length_app, IH. unfold match_of, has_match.
  destruct (find (exact_test a) pos); reflexivity.
Qed.

Lemma filter_split_length {A : Type} (p : A -> bool) (l : list A) :
  List.length (filter p l) + List.length (filter (fun x => negb (p x)) l) =
  List.length l.
Proof.
  induction l as [|x l IH]; simpl; [reflexivity|].
  destruct (p x); simpl; lia.
Qed.

(** X1: in a run that returns, the unmatched Opera rows are exactly the Opera
    rows without an exact match, in their order; an Opera row is unmatched
    exactly when it is on the Opera side of no match pair; and the number of
    match pairs plus the number of unmatched Opera rows is the number of Opera
    rows. *)
Theorem opera_rows_partition (python : bool) (opera pos : list Series) (res : Results) :
  reconcile_rows python opera pos = Ok res ->
  unmatched_opera res = filter (fun a => negb (has_match pos a)) opera
  /\ (forall a, In a opera ->
        (In a (unmatched_opera res) <->
         ~ exists m, In m (matched res) /\ m_opera m = a))
  /\ List.length (matched res) + List.length (unmatched_opera res) = List.length opera.
Proof.
  intros H. apply reconcile_rows_ok in H as [_ ->]. simpl.
  rewrite unmatched_opera_closed. split; [reflexivity|]. split.
  - intros a Ha. rewrite filter_In. unfold has_match. split.
    + intros [_ Hn] (m & Hm & <-).
      apply in_matched in Hm as (a' & b & _ & Hf & ->). simpl in Hn.
      now rewrite Hf in Hn.
    + intros Hn. split; [assumption|].
      destruct (find (exact_test a) pos) as [b|] eqn:Hf; [|reflexivity].
      exfalso. apply Hn. exists (mkMatch a b (amount a)). split; [|reflexivity].
      apply in_matched. exists a, b. auto.
  - rewrite matched_length. apply filter_split_length.
Qed.

(** Three Opera rows, of which the first two find the POS row of amount 50. *)
Lemma opera_rows_partition_witness :
  [record 70%float "A3"] =
  filter (fun a => negb (has_match [record 50%float "B1"] a))
         [record 50%float "A1"; record 50%float "A2"; record 70%float "A3"]
  /\ 2 + 1 = 3.
Proof.
  destruct (opera_rows_partition true
              [record 50%float "A1"; record 50%float "A2"; record 70%float "A3"]
              [record 50%float "B1"]
              (outcome [record 50%float "A1"; record 50%float "A2"; record 70%float "A3"]
                       [record 50%float "B1"])
              eq_refl) as (H1 & _ & H3).
  split; [exact H1 | exact H3].
Defined.

(** ** What the pairs of a result are *)

Lemma find_first {A : Type} (p : A -> bool) (l : list A) (x : A) :
  find p l = Some x ->
  exists before after,
    l = before ++ x :: after /\ p x = true /\ forall y, In y before -> p y = false.
Proof.
  induction l as [|y l IH]; simpl; [discriminate|].
  destruct (p y) eqn:E.
  - intros H; injection H as <-. exists [], l. repeat split; auto.
    intros ? [].
  - intros H. destruct (IH H) as (before & after & -> & Hx & Hb).
    exists (y :: before), after. repeat split; auto.
    intros z [<-|Hz]; auto.
Qed.

(** X2: in a run that returns, every match pair joins an Opera row with the
    first POS row, in table order, whose amount is within 0.01 of it: no
    earlier POS row is that close (first match, not best match).  The amount
    recorded is the Opera amount, and both amounts are numbers. *)
Theorem match_pairs_are_first_matches
    (python : bool) (opera pos : list Series) (res : Results) (m : MatchPair) :
  reconcile_rows python opera pos = Ok res ->
  In m (matched res) ->
  In (m_opera m) opera
  /\ m_amount m = amount (m_opera m)
  /\ (difference (m_opera m) (m_pos m) <? 0.01)%float = true
  /\ is_nan (amount (m_opera m)) = false /\ is_nan (amount (m_pos m)) = false
  /\ exists before after,
       pos = before ++ m_pos m :: after
       /\ forall b, In b before ->
                    (difference (m_opera m) b <? 0.01)%float = false.
Proof.
  intros H Hm. apply reconcile_rows_ok in H as [_ ->]. simpl in Hm.
  apply in_matched in Hm as (a & b & Ha & Hf & ->). simpl.
  destruct (find_first _ _ _ Hf) as (before & after & Hp & Ht & Hb).
  destruct (exact_test_parsed a b Ht) as [Na Nb].
  repeat split; auto. exists before, after. split; [assumption|]. exact Hb.
Qed.

(** 50.004 is within 0.01 of both POS rows; it is paired with the first. *)
Lemma match_pairs_are_first_matches_witness :
  exists before after,
    [record 50%float "B1"; record 50.004%float "B2"] =
    before ++ record 50%float "B1" :: after
    /\ forall b, In b before ->
                 (difference (record 50.004%float "A1") b <? 0.01)%float = false.
Proof.
  apply (match_pairs_are_first_matches true
           [record 50.004%float "A1"]
           [record 50%float "B1"; record 50.004%float "B2"]
           (outcome [record 50.004%float "A1"]
                    [record 50%float "B1"; record 50.004%float "B2"])
           (mkMatch (record 50.004%float "A1") (record 50%float "B1") 50.004%float)
           eq_refl).
  left. reflexivity.
Defined.

(** X3: in a run that returns, every mismatch pair joins an Opera row that
    found no exact match with a POS row; the difference recorded is
    [|a - b|], it is at least 0.01, the quotient by the Opera amount is below
    0.05, both amounts are numbers, and the Opera row is also listed in the
    unmatched Opera rows. *)
Theorem mismatch_pairs_are_also_unmatched
    (python : bool) (opera pos : list Series) (res : Results) (mm : MismatchPair) :
  reconcile_rows python opera pos = Ok res ->
  In mm (amount_mismatch res) ->
  In (mm_opera mm) opera /\ In (mm_pos mm) pos
  /\ has_match pos (mm_opera mm) = false
  /\ mm_difference mm = difference (mm_opera mm) (mm_pos mm)
  /\ (0.01 <=? mm_difference mm)%float = true
  /\ (relative_difference (mm_opera mm) (mm_pos mm) <? 0.05)%float = true
  /\ is_nan (amount (mm_opera mm)) = false /\ is_nan (amount (mm_pos mm)) = false
  /\ In (mm_opera mm) (unmatched_opera res).
Proof.
  intros H Hm. apply reconcile_rows_ok in H as [_ ->]. simpl in *.
  apply in_mismatch in Hm as (a & b & Ha & Hb & Hf & Hh & ->). simpl.
  destruct (fuzzy_hit_parsed a b Hh) as [Na Nb].
  pose proof Hh as Hh'. unfold fuzzy_hit in Hh'.
  apply andb_true_iff in Hh' as [H0 H5].
  assert (Hno : has_match pos a = false) by (unfold has_match; now rewrite Hf).
  repeat split; auto.
  - apply not_below_is_above; [assumption|]. apply (find_none _ _ Hf b Hb).
  - rewrite unmatched_opera_closed. apply filter_In. now rewrite Hno.
Qed.

(** 100 against 104: the pair of C1. *)
Lemma mismatch_pairs_are_also_unmatched_witness :
  (0.01 <=? 4)%float = true
  /\ In (record 100%float "A1") [record 100%float "A1"].
Proof.
  destruct (mismatch_pairs_are_also_unmatched true
              [record 100%float "A1"] [record 104%float "B1"]
              (outcome [record 100%float "A1"] [record 104%float "B1"])
              (mkMismatch (record 100%float "A1") (record 104%float "B1") 4%float)
              eq_refl (or_introl eq_refl))
    as (_ & _ & _ & _ & H1 & _ & _ & _ & H2).
  split; [exact H1 | exact H2].
Defined.

(** X4: in a run that returns, neither row of a match pair stays unmatched;
    and a POS row is unmatched exactly when its amount differs from the POS
    amount of every match pair. *)
Theorem matched_rows_leave_unmatched
    (python : bool) (opera pos : list Series) (res : Results) :
  reconcile_rows python opera pos = Ok res ->
  (forall m, In m (matched res) ->
     ~ In (m_opera m) (unmatched_opera res) /\ ~ In (m_pos m) (unmatched_pos res))
  /\ (forall r, In r (unmatched_pos res) <->
        In r pos /\ forall m, In m (matched res) ->
                              (amount r =? amount (m_pos m))%float = false).
Proof.
  intros H. apply reconcile_rows_ok in H as [_ ->]. simpl.
  assert (Hpos : forall r, In r (filter (fun r => forallb (survives_b pos r) opera) pos) <->
            In r pos /\ forall m, In m (flat_map (match_of pos) opera) ->
                                  (amount r =? amount (m_pos m))%float = false).
  { intros r. rewrite filter_In, forallb_forall. split; intros [Hr Hs]; split; auto.
    - intros m Hm. apply in_matched in Hm as (a & b & Ha & Hf & ->). simpl.
      specialize (Hs a Ha). unfold survives_b in Hs. rewrite Hf in Hs.
      now apply negb_true_iff in Hs.
    - intros a Ha. unfold survives_b.
      destruct (find (exact_test a) pos) as [b|] eqn:Hf; [|reflexivity].
      apply negb_true_iff. apply (Hs (mkMatch a b (amount a))).
      apply in_matched. exists a, b. auto. }
  split; [|exact Hpos].
  intros m Hm. split.
  - rewrite unmatched_opera_closed, filter_In.
    apply in_matched in Hm as (a & b & _ & Hf & ->). simpl.
    unfold has_match. rewrite Hf. intros [_ ?]. discriminate.
  - intros Hin. apply Hpos in Hin as [_ Hs]. specialize (Hs m Hm).
    apply in_matched in Hm as (a & b & _ & Hf & ->). simpl in Hs.
    apply find_some in Hf as [_ Hf]. apply exact_test_parsed in Hf as [_ Nb].
    now rewrite (eqb_self _ Nb) in Hs.
Qed.

(** The POS row B2 of amount 50 is never paired, yet it leaves the unmatched
    POS rows with B1. *)
Lemma matched_rows_leave_unmatched_witness :
  ~ In (record 50%float "B1") [record 70%float "B3"]
  /\ (In (record 50%float "B2") [record 70%float "B3"] <->
      In (record 50%float "B2")
         [record 50%float "B1"; record 50%float "B2"; record 70%float "B3"]
      /\ forall m,
           In m [mkMatch (record 50%float "A1") (record 50%float "B1") 50%float] ->
           (amount (record 50%float "B2") =? amount (m_pos m))%float = false).
Proof.
  destruct (matched_rows_leave_unmatched true [record 50%float "A1"]
              [record 50%float "B1"; record 50%float "B2"; record 70%float "B3"]
              (outcome [record 50%float "A1"]
                 [record 50%float "B1"; record 50%float "B2"; record 70%float "B3"])
              eq_refl) as [H1 H2].
  split.
  - apply (H1 (mkMatch (record 50%float "A1") (record 50%float "B1") 50%float)).
    left. reflexivity.
  - apply (H2 (record 50%float "B2")).
Defined.

(** ** When the loops raise *)

(** X5: the loops raise nothing but ZeroDivisionError, and they raise it
    exactly when both tables hand out Python floats and some Opera row of
    amount zero without an exact match meets a POS row whose amount is a
    number.  When one table is all numeric the loops always return, and a run
    on Python floats that returns gives the same result. *)
Theorem loops_raise_only_on_zero_amount (python : bool) (opera pos : list Series) :
  (raises (reconcile_rows python opera pos) = true <->
   python = true /\
   exists a b, In a opera /\ In b pos /\ (amount a =? 0)%float = true
               /\ has_match pos a = false /\ is_nan (amount b) = false)
  /\ (forall e, reconcile_rows python opera pos = Raise e -> e = ZeroDivisionError)
  /\ raises (reconcile_rows false opera pos) = false
  /\ (forall res, reconcile_rows python opera pos = Ok res ->
                  reconcile_rows false opera pos = Ok res).
Proof.
  assert (Hfalse : existsb (row_raises false pos) opera = false).
  { apply not_true_is_false. intros H. apply existsb_exists in H as (a & _ & H).
    unfold row_raises in H. destruct (find (exact_test a) pos); [discriminate|].
    apply existsb_exists in H as (b & _ & H). discriminate H. }
  split; [|split; [|split]].
  - split.
    + rewrite reconcile_rows_eq.
      destruct (existsb (row_raises python pos) opera) eqn:E; [|discriminate].
      intros _. apply existsb_exists in E as (a & Ha & E).
      unfold row_raises in E.
      destruct (find (exact_test a) pos) eqn:Hf; [discriminate|].
      apply existsb_exists in E as (b & Hb & E). unfold pair_raises in E.
      apply andb_true_iff in E as [E Hz]. apply andb_true_iff in E as [Hp Hd].
      split; [assumption|]. exists a, b. repeat split; auto.
      * unfold has_match. now rewrite Hf.
      * destruct (is_nan (amount b)) eqn:Nb; [|reflexivity].
        destruct (nan_tests python a b (or_intror Nb)) as (_ & _ & H' & _).
        unfold pair_raises in H'. rewrite Hp, Hd, Hz in H'. discriminate H'.
    + intros (-> & a & b & Ha & Hb & Hz & Hm & Nb).
      unfold has_match in Hm.
      destruct (find (exact_test a) pos) eqn:Hf; [discriminate|].
      now rewrite (zero_amount_raises opera pos a b Ha Hb Hz Hf Nb).
  - intros e. rewrite reconcile_rows_eq.
    destruct (existsb (row_raises python pos) opera); congruence.
  - now rewrite reconcile_rows_eq, Hfalse.
  - intros res H. apply reconcile_rows_ok in H as [_ ->].
    now rewrite reconcile_rows_eq, Hfalse.
Qed.

(** ** Opera rows are handled one by one *)

Lemma unmatched_pos_app (o1 o2 pos : list Series) (b : Series) :
  In b (filter (fun r => forallb (survives_b pos r) (o1 ++ o2)) pos) <->
  In b (filter (fun r => forallb (survives_b pos r) o1) pos)
  /\ In b (filter (fun r => forallb (survives_b pos r) o2) pos).
Proof.
  rewrite !filter_In, forallb_app, andb_true_iff. tauto.
Qed.

(** X6: the pairs of an Opera row do not depend on the other Opera rows.  A
    run on the rows [o1 ++ o2] raises exactly when the run on [o1] or the run
    on [o2] does; when both return, its match pairs, mismatch pairs and
    unmatched Opera rows are those of [o1] followed by those of [o2], and its
    unmatched POS rows are the rows unmatched in both. *)
Theorem opera_rows_are_independent (python : bool) (o1 o2 pos : list Series) :
  raises (reconcile_rows python (o1 ++ o2) pos) =
  raises (reconcile_rows python o1 pos) || raises (reconcile_rows python o2 pos)
  /\ (forall r1 r2,
        reconcile_rows python o1 pos = Ok r1 ->
        reconcile_rows python o2 pos = Ok r2 ->
        exists r,
          reconcile_rows python (o1 ++ o2) pos = Ok r
          /\ matched r = matched r1 ++ matched r2
          /\ amount_mismatch r = amount_mismatch r1 ++ amount_mismatch r2
          /\ unmatched_opera r = unmatched_opera r1 ++ unmatched_opera r2
          /\ (forall b, In b (unmatched_pos r) <->
                        In b (unmatched_pos r1) /\ In b (unmatched_pos r2))).
Proof.
  split.
  - rewrite !reconcile_rows_eq, existsb_app.
    destruct (existsb (row_raises python pos) o1),
             (existsb (row_raises python pos) o2); reflexivity.
  - intros r1 r2 H1 H2.
    apply reconcile_rows_ok in H1 as [E1 ->].
    apply reconcile_rows_ok in H2 as [E2 ->].
    exists (outcome (o1 ++ o2) pos). rewrite reconcile_rows_eq, existsb_app, E1, E2.
    simpl. split; [reflexivity|].
    split; [apply flat_map_app|]. split; [apply flat_map_app|]. split.
    + now rewrite !unmatched_opera_closed, filter_app.
    + intros b. apply unmatched_pos_app.
Qed.

(** ** Empty tables *)

Lemma iterrows_nil (df df' : DataFrame) :
  normalize df = Ok df' -> rows df = [] -> iterrows df' = [].
Proof.
  intros H E. destruct (normalize_ok _ _ H) as (j & _ & _ & Hr).
  unfold iterrows. now rewrite Hr, E.
Qed.

(** X7: when both tables have their amount column, an Opera table without rows
    gives a result with no pair and every POS row unmatched; a POS table
    without rows gives a result with no pair and every Opera row unmatched,
    whatever the Opera amounts are (no division is reached). *)
Theorem empty_tables (opera_df pos_df opera pos : DataFrame) :
  normalize opera_df = Ok opera -> normalize pos_df = Ok pos ->
  (rows opera_df = [] ->
     reconcile_transactions opera_df pos_df = Ok (mkResults [] [] (iterrows pos) []))
  /\ (rows pos_df = [] ->
     reconcile_transactions opera_df pos_df = Ok (mkResults [] (iterrows opera) [] [])).
Proof.
  intros Ho Hp. unfold reconcile_transactions. rewrite Ho, Hp. simpl. split; intros E.
  - rewrite (iterrows_nil _ _ Ho E), reconcile_rows_eq. simpl.
    unfold outcome. simpl. now rewrite filter_true.
  - rewrite (iterrows_nil _ _ Hp E), reconcile_rows_eq.
    replace (existsb _ (iterrows opera)) with false.
    + unfold outcome. f_equal. f_equal.
      * induction (iterrows opera); simpl; auto.
      * rewrite <- (filter_true (iterrows opera)) at 2.
        apply filter_ext. intros r. induction (iterrows opera); simpl; auto.
      * induction (iterrows opera); simpl; auto.
    + symmetry. induction (iterrows opera); simpl; auto.
Qed.

(** An Opera table with a zero amount against a POS table without rows. *)
Lemma empty_tables_witness :
  reconcile_transactions (ledger [(0%float, "A1")]) (ledger []) =
  Ok (mkResults [] [record 0%float "A1"] [] []).
Proof.
  apply (proj2 (empty_tables (ledger [(0%float, "A1")]) (ledger [])
                  (ledger [(0%float, "A1")]) (ledger [])
                  ltac:(vm_compute; reflexivity) ltac:(vm_compute; reflexivity))).
  reflexivity.
Defined.

(** A run on which X6 speaks: a matched row followed by a mismatched one. *)
Lemma opera_rows_are_independent_witness :
  exists r,
    reconcile_rows true ([record 50%float "A1"] ++ [record 100%float "A2"])
                   [record 50%float "B1"; record 104%float "B2"] = Ok r
    /\ matched r = [mkMatch (record 50%float "A1") (record 50%float "B1") 50%float] ++ []
    /\ amount_mismatch r =
       [] ++ [mkMismatch (record 100%float "A2") (record 104%float "B2") 4%float]
    /\ unmatched_opera r = [] ++ [record 100%float "A2"]
    /\ (forall b, In b (unmatched_pos r) <->
                  In b [record 104%float "B2"]
                  /\ In b [record 50%float "B1"; record 104%float "B2"]).
Proof.
  exact (proj2 (opera_rows_are_independent true [record 50%float "A1"]
                  [record 100%float "A2"]
                  [record 50%float "B1"; record 104%float "B2"])
           (outcome [record 50%float "A1"] [record 50%float "B1"; record 104%float "B2"])
           (outcome [record 100%float "A2"] [record 50%float "B1"; record 104%float "B2"])
           eq_refl eq_refl).
Defined.

(** ** The exact test is symmetric *)

Section Symmetry.
Variables prec emax : Z.

Lemma binary_round_aux_abs (s : bool) (m e : Z) (l : location) :
  SFabs (binary_round_aux prec emax s m e l) =
  SFabs (binary_round_aux prec emax false m e l).
Proof.
  unfold binary_round_aux.
  destruct (shr_fexp prec emax m e l) as [mrs' e'].
  destruct (shr_fexp prec emax _ e' loc_Exact) as [mrs'' e''].
  destruct (shr_m mrs''); try reflexivity.
  destruct (e'' <=? emax - prec)%Z; reflexivity.
Qed.

Lemma binary_normalize_opp_abs (m e : Z) :
  SFabs (binary_normalize prec emax (- m) e false) =
  SFabs (binary_normalize prec emax m e false).
Proof.
  destruct m as [|p|p]; simpl; try reflexivity; unfold binary_round;
    destruct (shl_align p e _) as [mz ez];
    rewrite (binary_round_aux_abs true); reflexivity.
Qed.

Lemma SFsub_abs_comm (x y : spec_float) :
  SFabs (SFsub prec emax x y) = SFabs (SFsub prec emax y x).
Proof.
  destruct x as [[]|[]| |sx mx ex], y as [[]|[]| |sy my ey]; try reflexivity.
  simpl. rewrite (Z.min_comm ey ex), <- binary_normalize_opp_abs.
  f_equal. f_equal. lia.
Qed.
End Symmetry.

(** X8: the absolute difference and the exact test do not depend on the order
    of the two amounts, so a POS row that an Opera row is paired with would
    itself find an exact match among the Opera rows. *)
Theorem exact_test_is_symmetric (a b : Series) :
  difference a b = difference b a
  /\ exact_test a b = exact_test b a
  /\ (forall opera pos, In a opera -> find (exact_test a) pos = Some b ->
                        has_match opera b = true).
Proof.
  assert (Hd : forall x y, difference x y = difference y x).
  { intros x y. rewrite <- (SF2Prim_Prim2SF (difference x y)),
                        <- (SF2Prim_Prim2SF (difference y x)).
    unfold difference. rewrite !abs_spec, !sub_spec. unfold SF64sub.
    now rewrite SFsub_abs_comm. }
  assert (He : forall x y, exact_test x y = exact_test y x).
  { intros x y. unfold exact_test. fold (difference x y) (difference y x).
    now rewrite Hd. }
  repeat split; auto.
  intros opera pos Ha Hf. apply find_some in Hf as [_ Hf]. rewrite He in Hf.
  unfold has_match. destruct (find (exact_test b) opera) eqn:E; [reflexivity|].
  rewrite (find_none _ _ E a Ha) in Hf. discriminate.
Qed.

(** ** Display and export *)

Lemma lookup_key (k : string) (s : Series) :
  lookup k s <> None <-> In k (map fst s).
Proof.
  induction s as [|[k' v] s IH]; simpl; [tauto|].
  destruct (String.eqb_spec k k') as [->|Hne].
  - split; [auto | discriminate].
  - rewrite IH. split; [auto | intros [E|E]; congruence].
Qed.

Lemma getitem_amount (a : Series) :
  is_nan (amount a) = false -> exists v, getitem "amount" a = Ok v.
Proof.
  intros H. unfold getitem, dict_lookup.
  assert (Hk : lookup "amount" (rev a) <> None).
  { apply lookup_key. rewrite map_rev, <- in_rev. apply lookup_key.
    unfold amount in H. destruct (lookup "amount" a); [discriminate|].
    discriminate H. }
  destruct (lookup "amount" (rev a)) as [v|]; [eauto | congruence].
Qed.

Lemma traverse_ok {A B : Type} (f : A -> result B) (l : list A) :
  (forall x, In x l -> exists y, f x = Ok y) ->
  exists ys, traverse f l = Ok ys /\ List.length ys = List.length l.
Proof.
  induction l as [|x l IH]; intros H; simpl; [now exists []|].
  destruct (H x (or_introl eq_refl)) as [y ->].
  destruct IH as (ys & -> & Hl); [intros z Hz; apply H; now right|].
  exists (y :: ys). simpl. auto.
Qed.

Lemma mismatch_rows_ok (python : bool) (opera pos : list Series) (res : Results) :
  reconcile_rows python opera pos = Ok res ->
  exists body, traverse mismatch_row (amount_mismatch res) = Ok body
               /\ List.length body = List.length (amount_mismatch res).
Proof.
  intros H. apply reconcile_rows_ok in H as [_ ->]. simpl.
  apply traverse_ok. intros mm Hm.
  apply in_mismatch in Hm as (a & b & _ & _ & _ & Hh & ->).
  destruct (fuzzy_hit_parsed a b Hh) as [Na Nb].
  destruct (getitem_amount a Na) as [va Ea], (getitem_amount b Nb) as [vb Eb].
  unfold mismatch_row. simpl. rewrite Ea, Eb. simpl. eauto.
Qed.

(** X13: the result of a run that returns is always displayed without an
    error when the download button is not pressed: the lookups
    [m['opera']['amount']] and [m['pos']['amount']] of the mismatch table
    find their key.  The page is the summary with the four counts, the table
    of mismatches with one line per mismatch pair (or the text that there is
    none), and the unmatched rows. *)
Theorem display_after_reconcile
    (python : bool) (opera pos : list Series) (res : Results) (now : string) :
  reconcile_rows python opera pos = Ok res ->
  exists el,
    display_results res false now = (summary res ++ el :: unmatched_part res, None)
    /\ (amount_mismatch res = [] -> el = Write "No amount mismatches found")
    /\ (amount_mismatch res <> [] ->
        exists body, el = Dataframe mismatch_header body
                     /\ List.length body = List.length (amount_mismatch res)).
Proof.
  intros H. destruct (mismatch_rows_ok _ _ _ _ H) as (body & Hb & Hl).
  unfold display_results.
  destruct (amount_mismatch res) as [|mm l] eqn:E.
  - eexists. split; [reflexivity|]. split; [reflexivity | congruence].
  - rewrite Hb. simpl. eexists. split; [reflexivity|].
    split; [discriminate|]. intros _. eauto.
Qed.

(** The run of C1: one mismatch pair, one line in the table. *)
Lemma display_after_reconcile_witness :
  exists el,
    display_results
      (outcome [record 100%float "A1"] [record 104%float "B1"]) false "now"
    = (summary (outcome [record 100%float "A1"] [record 104%float "B1"])
         ++ el :: unmatched_part (outcome [record 100%float "A1"] [record 104%float "B1"]),
       None)
    /\ el = Dataframe mismatch_header
              [[CNum 100; CNum 104; CNum 4; CStr "N/A"; CStr "N/A"]].
Proof.
  destruct (display_after_reconcile true [record 100%float "A1"]
              [record 104%float "B1"]
              (outcome [record 100%float "A1"] [record 104%float "B1"]) "now"
              eq_refl) as (el & H & _).
  exists el. split; [exact H|].
  vm_compute in H. injection H as H. symmetry. exact H.
Defined.

Lemma summary_no_download (results : Results) (l : string) (d : list sheet)
    (f m : string) :
  ~ In (DownloadButton l d f m) (summary results).
Proof.
  unfold summary. simpl. destruct (matched results);
    intros H; repeat (destruct H as [H|H]; [discriminate H|]); exact H.
Qed.

Lemma unmatched_part_no_download (results : Results) (l : string) (d : list sheet)
    (f m : string) :
  ~ In (DownloadButton l d f m) (unmatched_part results).
Proof.
  unfold unmatched_part. simpl.
  destruct (unmatched_opera results), (unmatched_pos results);
    intros H; repeat (destruct H as [H|H]; [discriminate H|]); exact H.
Qed.

(** X14: [generate_report] never builds a report: its first statement reads
    the global name [io], which the module does not bind (it is not among the
    imports of lines 1-5), so NameError is raised before any sheet is written.
    A display with the download button pressed therefore always ends with an
    exception and renders no download button. *)
Theorem report_is_never_generated (results : Results) (now : string) :
  generate_report results now = ([], Some (NameError "io"))
  /\ forall page err,
       display_results results true now = (page, err) ->
       err <> None /\ forall l d f m, ~ In (DownloadButton l d f m) page.
Proof.
  assert (G : generate_report results now = ([], Some (NameError "io")))
    by reflexivity.
  split; [exact G|]. intros page err. unfold display_results. rewrite G.
  assert (Hpage : forall el, (forall l d f m, el <> DownloadButton l d f m) ->
            forall l d f m,
              ~ In (DownloadButton l d f m)
                   ((summary results ++ el :: unmatched_part results) ++ [])).
  { intros el Hel l d f m Hin. rewrite app_nil_r in Hin.
    apply in_app_or in Hin as [Hin|[Hin|Hin]].
    - now apply summary_no_download in Hin.
    - now apply Hel in Hin.
    - now apply unmatched_part_no_download in Hin. }
  destruct (amount_mismatch results) as [|mm rest].
  - cbv beta iota zeta. intros H; injection H as <- <-.
    split; [discriminate|]. apply Hpage. discriminate.
  - destruct (traverse mismatch_row (mm :: rest)) as [body|e];
      unfold bind; cbv beta iota zeta; intros H; injection H as <- <-;
      (split; [discriminate|]).
    + apply Hpage. discriminate.
    + intros l d f m. apply summary_no_download.
Qed.

(** ** Only the amounts are compared *)

Lemma find_map {A B : Type} (p : B -> bool) (f : A -> B) (l : list A) :
  find p (map f l) = option_map f (find (fun x => p (f x)) l).
Proof.
  induction l as [|x l IH]; simpl; [reflexivity|].
  destruct (p (f x)); [reflexivity | exact IH].
Qed.

Lemma filter_map_swap {A B : Type} (p : B -> bool) (f : A -> B) (l : list A) :
  filter p (map f l) = map f (filter (fun x => p (f x)) l).
Proof.
  induction l as [|x l IH]; simpl; [reflexivity|].
  destruct (p (f x)); simpl; now rewrite IH.
Qed.

Lemma find_amount_only (pos : list Series) (a : Series) :
  find (exact_test (amount_only a)) (map amount_only pos) =
  option_map amount_only (find (exact_test a) pos).
Proof. now rewrite find_map. Qed.

Lemma row_raises_amount_only (python : bool) (pos : list Series) (a : Series) :
  row_raises python (map amount_only pos) (amount_only a) = row_raises python pos a.
Proof.
  unfold row_raises. rewrite find_amount_only.
  destruct (find (exact_test a) pos); simpl; [reflexivity|].
  induction pos as [|b pos IH]; simpl; [reflexivity|]. now rewrite IH.
Qed.

Lemma forallb_map {A B : Type} (p : B -> bool) (f : A -> B) (l : list A) :
  forallb p (map f l) = forallb (fun x => p (f x)) l.
Proof. induction l as [|x l IH]; simpl; [reflexivity|]. now rewrite IH. Qed.

Lemma forallb_pointwise {A : Type} (p q : A -> bool) (l : list A) :
  (forall x, p x = q x) -> forallb p l = forallb q l.
Proof. intros H. induction l as [|x l IH]; simpl; [reflexivity|]. now rewrite H, IH. Qed.

Lemma outcome_amount_only (opera pos : list Series) :
  outcome (map amount_only opera) (map amount_only pos) =
  amounts_of (outcome opera pos).
Proof.
  unfold outcome, amounts_of. simpl. f_equal.
  - induction opera as [|a opera IH]; simpl; [reflexivity|].
    rewrite map_app, IH. f_equal. unfold match_of. rewrite find_amount_only.
    now destruct (find (exact_test a) pos).
  - rewrite filter_map_swap. f_equal. apply filter_ext. intros r.
    rewrite forallb_map. apply forallb_pointwise. intros a.
    unfold survives_a. rewrite find_amount_only.
    now destruct (find (exact_test a) pos).
  - rewrite filter_map_swap. f_equal. apply filter_ext. intros r.
    rewrite forallb_map. apply forallb_pointwise. intros a.
    unfold survives_b. rewrite find_amount_only.
    now destruct (find (exact_test a) pos).
  - induction opera as [|a opera IH]; simpl; [reflexivity|].
    rewrite map_app, IH. f_equal. unfold mismatch_of. rewrite find_amount_only.
    destruct (find (exact_test a) pos); simpl; [reflexivity|].
    now rewrite filter_map_swap, !map_map.
Qed.

Lemma amount_only_map (l l' : list Series) :
  map amount l = map amount l' -> map amount_only l = map amount_only l'.
Proof.
  intros H.
  change (map amount_only l) with
    (map (fun r => (fun x => [("amount", CNum x)]) (amount r)) l).
  change (map amount_only l') with
    (map (fun r => (fun x => [("amount", CNum x)]) (amount r)) l').
  now rewrite <- !(map_map amount (fun x => [("amount", CNum x)])), H.
Qed.

(** X16: no column but the amount takes part in the reconciliation
    (identifiers and dates are never compared).  Take two pairs of tables
    with the same amounts, row by row; whether their rows are Python floats
    ([python], [python']) depends on their other columns.  Whenever both runs
    return, their results have the same amounts in the same places.  They
    raise alike when their rows are of the same kind; the run on numpy rows
    always returns, also where the run on Python rows raises.  In particular
    the run on the amount columns alone, whose rows are numpy rows, returns
    the result of the loops with the other columns forgotten. *)
Theorem only_amounts_are_compared
    (python python' : bool) (opera pos opera' pos' : list Series) :
  map amount opera' = map amount opera -> map amount pos' = map amount pos ->
  (forall res res',
     reconcile_rows python opera pos = Ok res ->
     reconcile_rows python' opera' pos' = Ok res' ->
     amounts_of res' = amounts_of res)
  /\ (python' = python ->
      raises (reconcile_rows python' opera' pos') =
      raises (reconcile_rows python opera pos))
  /\ (python' = false ->
      exists res', reconcile_rows python' opera' pos' = Ok res'
                   /\ amounts_of res' = amounts_of (outcome opera pos))
  /\ (forall res,
        reconcile_rows python opera pos = Ok res ->
        reconcile_rows false (map amount_only opera) (map amount_only pos)
        = Ok (amounts_of res)).
Proof.
  intros Ho Hp.
  assert (H : forall py o p,
            reconcile_rows py (map amount_only o) (map amount_only p) =
            match reconcile_rows py o p with
            | Ok res => Ok (amounts_of res)
            | Raise e => Raise e
            end).
  { intros py o p. rewrite !reconcile_rows_eq.
    replace (existsb (row_raises py (map amount_only p)) (map amount_only o))
      with (existsb (row_raises py p) o).
    - destruct (existsb (row_raises py p) o); [reflexivity|].
      now rewrite outcome_amount_only.
    - induction o as [|a o IH]; simpl; [reflexivity|].
      now rewrite row_raises_amount_only, IH. }
  assert (Hsame : amounts_of (outcome opera' pos') = amounts_of (outcome opera pos)).
  { rewrite <- !outcome_amount_only.
    now rewrite (amount_only_map _ _ Ho), (amount_only_map _ _ Hp). }
  assert (Hfalse : forall o p, reconcile_rows false o p = Ok (outcome o p)).
  { intros o p. rewrite reconcile_rows_eq.
    replace (existsb (row_raises false p) o) with false; [reflexivity|].
    symmetry. apply not_true_is_false. intros E.
    apply existsb_exists in E as (a & _ & E). unfold row_raises in E.
    destruct (find (exact_test a) p); [discriminate|].
    apply existsb_exists in E as (b & _ & E). discriminate E. }
  split; [|split; [|split]].
  - intros res res' E E'.
    apply reconcile_rows_ok in E as [_ ->]. apply reconcile_rows_ok in E' as [_ ->].
    exact Hsame.
  - intros ->.
    pose proof (H python opera pos) as H1. pose proof (H python opera' pos') as H2.
    rewrite (amount_only_map _ _ Ho), (amount_only_map _ _ Hp), H1 in H2.
    destruct (reconcile_rows python opera pos),
             (reconcile_rows python opera' pos'); simpl; congruence.
  - intros ->. exists (outcome opera' pos'). split; [apply Hfalse | exact Hsame].
  - intros res E. apply reconcile_rows_ok in E as [_ ->].
    now rewrite Hfalse, outcome_amount_only.
Qed.

(** The amounts 0 against 1: with identifiers the rows are Python floats and
    the run raises; on the amount columns alone it returns, with the row of
    amount 0 in no pair (the quotient is infinite). *)
Lemma only_amounts_are_compared_witness :
  reconcile_rows true [record 0%float "A1"] [record 1%float "B1"]
  = Raise ZeroDivisionError
  /\ exists res',
       reconcile_rows false [amount_only (record 0%float "A1")]
                            [amount_only (record 1%float "B1")] = Ok res'
       /\ amounts_of res' =
          amounts_of (outcome [record 0%float "A1"] [record 1%float "B1"]).
Proof.
  split; [reflexivity|].
  apply (proj1 (proj2 (proj2 (only_amounts_are_compared true false
           [record 0%float "A1"] [record 1%float "B1"]
           [amount_only (record 0%float "A1")] [amount_only (record 1%float "B1")]
           eq_refl eq_refl))) eq_refl).
Defined.
